(** * Virtual try-on flow ([start.py]): a shallow embedding and its properties

    The repository consists of one function, [swap_clothing], and the
    Streamlit page that feeds it.  The function stages two PIL images in
    temporary files, uploads them, builds a prompt from the body
    measurements, asks the remote model for one generation, picks the text
    and the inline image out of the answer, and removes what it staged.

    Everything outside the function (the temporary-file facility, PIL, the
    remote client, the [warnings] machinery) is gathered in a record of
    oracles threaded through an abstract external state; the filesystem is
    an explicit finite map from path to contents.  The Python control flow
    ([return] inside [try], [except Exception], [finally], the inner
    [try]/[except] of the decoding step) is rendered with a small monad whose
    computations end normally, by a raised exception or by a [return].

    Line 62 of the source binds [api_key] to the literal [''] and directs the
    deployment to substitute its key; the model reads the key from the
    environment record, so that both sides of the test on line 63 exist.

    What the model takes for granted: writing to a temporary file that was
    just opened succeeds; [os.unlink] succeeds on a file that exists;
    [client.files] has a [delete] attribute and a [File] handle is truthy
    (line 178); the collaborators touch no temporary file of the flow. *)

From Stdlib Require Import ZArith QArith Ascii String DecimalString.
From Stdlib Require Import Strings.Byte.
From Stdlib Require Import DecimalPos DecimalZ.
From stdpp Require Import base option list strings gmap.

Local Open Scope Z_scope.

(** ** Strings *)

(** The line feed that ends the lines the flow appends to its text. *)
Definition nl : string := String "010"%char EmptyString.

Module Str.

(** [substring_of s t]: Python's [s in t]. *)
Definition substring_of (s t : string) : Prop :=
  ∃ pre post, t = pre +:+ s +:+ post.

(** [occurs c s]: the character [c] appears in [s]. *)
Fixpoint occurs (c : ascii) (s : string) : bool :=
  match s with
  | EmptyString => false
  | String x s' => if Ascii.eqb c x then true else occurs c s'
  end.

End Str.

(** ** [str] of a Python [int] *)

(** The measurements come from [st.number_input] with integer bounds, hence
    are Python [int]s; an f-string field [{chest}] renders one with [str],
    the decimal numeral with a leading [-] for negatives. *)
Definition str_int (z : Z) : string := NilZero.string_of_int (Z.to_int z).

(** ** The prompt (lines 80-107) *)

(** The literal chunks of the f-string, between its replacement fields. *)
Definition prompt_lit0 : string := "
            Generate a photorealistic try-on result.

            PERSON:
            - Preserve identity (face, hair, skin tone, expression).
            - Keep background, lighting, and pose unchanged.

            CLOTHING FIT (match measurements below):
            - Chest: ".

Definition prompt_lit1 : string := " inches
            - Waist: ".

Definition prompt_lit2 : string := " inches
            - Hips: ".

Definition prompt_lit3 : string := " inches
            - Height: ".

Definition prompt_lit4 : string := " inches

            Ensure clothing scales naturally to fit these proportions.
            Retain fabric folds, wrinkles, and texture.

            REALISM REQUIREMENTS:
            - No distortion, misaligned patterns, or artifacts.
            - Match lighting & shadows from original photo.
            - Colors should look natural in the scene.

            OUTPUT MODE: ".

Definition prompt_lit5 : string := "
            ".

(** The text appended for the three-dimensional rendering (lines 104-107). *)
Definition clause_3d : string := "
                Render as a 3D-style model or mannequin, showing body depth and garment draping
                in three dimensions. Maintain realism while giving a 3D perspective.
                ".

(** The radio button of the page offers these two modes (line 209). *)
Definition output_modes : list string := ["2D Image"; "3D Model"].

Definition build_prompt (chest waist hips height : Z) (output_mode : string) : string :=
  let prompt :=
    prompt_lit0 +:+ str_int chest +:+
    prompt_lit1 +:+ str_int waist +:+
    prompt_lit2 +:+ str_int hips +:+
    prompt_lit3 +:+ str_int height +:+
    prompt_lit4 +:+ output_mode +:+
    prompt_lit5 in
  if String.eqb output_mode "3D Model" then prompt +:+ clause_3d else prompt.

(** ** Data exchanged with the collaborators *)

(** A Python exception, as far as the flow looks at it: [str(e)] and
    [type(e).__name__]. *)
Record Exception := { exn_str : string; exn_name : string }.

(** What an external call does: it gives a value or throws. *)
Inductive external (A : Type) : Type :=
| Gives (a : A)
| Throws (e : Exception).
Arguments Gives {A} a.
Arguments Throws {A} e.

(** A decoded raster image ([PIL.Image.Image]). *)
Record Image := { im_mode : string; im_size : N * N; im_data : list byte }.

(** [img.copy()]: a new image with the same mode, size and pixels. *)
Definition Image_copy (img : Image) : Image :=
  {| im_mode := im_mode img; im_size := im_size img; im_data := im_data img |}.

(** [genai.Client(api_key=...)]. *)
Record Client := { client_api_key : string }.

(** The handle returned by [client.files.upload]. *)
Record File := { uri : string; mime_type : string }.

(** [inline_data.data]: [bytes], or a [str] holding base64 text, or [None]. *)
Inductive BlobData :=
| DataBytes (bs : list byte)
| DataStr (s : string)
| DataNone.

Record Blob := { data : BlobData }.
Record FileData := { file_uri : string; file_mime_type : string }.

(** [types.Part]: the request builds parts with [from_text] and [from_uri],
    the response is read through [text] and [inline_data]. *)
Record Part := {
  text : option string;
  inline_data : option Blob;
  file_data : option FileData
}.

Definition Part_from_text (t : string) : Part :=
  {| text := Some t; inline_data := None; file_data := None |}.
Definition Part_from_uri (u m : string) : Part :=
  {| text := None; inline_data := None;
     file_data := Some {| file_uri := u; file_mime_type := m |} |}.

Record Content := { role : option string; parts : option (list Part) }.
Record Candidate := { content : option Content }.
Record GenerateContentResponse := { candidates : option (list Candidate) }.

Record SafetySetting := { category : string; threshold : string }.

Record GenerateContentConfig := {
  temperature : Q;
  top_p : Q;
  top_k : Z;
  max_output_tokens : Z;
  response_modalities : list string;
  safety_settings : list SafetySetting;
  response_mime_type : string
}.

(** The filesystem: path to contents. *)
Abbreviation Files := (gmap string (list byte)).

(** ** The environment *)

(** Every collaborator is an oracle over an abstract external state [Ext]
    (remote service, random names, clock, recorded warnings): the model
    assumes nothing about what the calls answer or when they throw.
    [Image_open] stands for [Image.open] followed by the load that
    [img.copy()] forces; both sit in the same [try] block. *)
Record Env (Ext : Type) := {
  GEMINI_API_KEY : string;
  warning_list : Ext → list string;
  genai_Client : string → Ext → external unit * Ext;
  NamedTemporaryFile : string → Files → Ext → external string * Ext;
  Image_save : Image → string → Ext → external (list byte) * Ext;
  files_upload : string → Files → Ext → external File * Ext;
  generate_content :
    string → list Content → GenerateContentConfig → Ext →
    external (option GenerateContentResponse) * Ext;
  files_delete : string → Ext → external unit * Ext;
  b64decode : string → external (list byte);
  Image_open : list byte → Ext → external Image * Ext
}.
Arguments GEMINI_API_KEY {Ext} _.
Arguments warning_list {Ext} _ _.
Arguments genai_Client {Ext} _ _ _.
Arguments NamedTemporaryFile {Ext} _ _ _ _.
Arguments Image_save {Ext} _ _ _ _.
Arguments files_upload {Ext} _ _ _ _.
Arguments generate_content {Ext} _ _ _ _ _.
Arguments files_delete {Ext} _ _ _.
Arguments b64decode {Ext} _ _.
Arguments Image_open {Ext} _ _ _.

(** What the flow did to the outside, in order. *)
Inductive Event :=
| EClient (api_key : string)
| ETempFile (path : string)
| ESave (path : string)
| EWrite (path : string)
| EImageOpen (path : string)
| EUnlink (path : string)
| EUpload (path : string)
| EGenerate (model : string) (contents : list Content)
| ERemoteDelete (file : string).

Record World (Ext : Type) := {
  fs : Files;
  ext : Ext;
  log : list Event
}.
Arguments fs {Ext} _.
Arguments ext {Ext} _.
Arguments log {Ext} _.
Arguments Build_World {Ext} _ _ _.

(** The local variables of [swap_clothing] that outlive the [try] body,
    together with the world. *)
Record State (Ext : Type) := {
  temp_files : list string;
  uploaded_files : list File;
  client : option Client;
  output_image : option Image;
  output_text : string;
  world : World Ext
}.
Arguments temp_files {Ext} _.
Arguments uploaded_files {Ext} _.
Arguments client {Ext} _.
Arguments output_image {Ext} _.
Arguments output_text {Ext} _.
Arguments world {Ext} _.
Arguments Build_State {Ext} _ _ _ _ _ _.

Section Setters.
Context {Ext : Type}.

Definition set_fs (f : Files → Files) (w : World Ext) : World Ext :=
  Build_World (f (fs w)) (ext w) (log w).
Definition set_ext (σ : Ext) (w : World Ext) : World Ext :=
  Build_World (fs w) σ (log w).
Definition add_event (ev : Event) (w : World Ext) : World Ext :=
  Build_World (fs w) (ext w) (log w ++ [ev]).

Definition set_world (f : World Ext → World Ext) (st : State Ext) : State Ext :=
  Build_State (temp_files st) (uploaded_files st) (client st)
              (output_image st) (output_text st) (f (world st)).
Definition set_temp_files (l : list string) (st : State Ext) : State Ext :=
  Build_State l (uploaded_files st) (client st)
              (output_image st) (output_text st) (world st).
Definition set_uploaded_files (l : list File) (st : State Ext) : State Ext :=
  Build_State (temp_files st) l (client st)
              (output_image st) (output_text st) (world st).
Definition set_client (c : option Client) (st : State Ext) : State Ext :=
  Build_State (temp_files st) (uploaded_files st) c
              (output_image st) (output_text st) (world st).
Definition set_output_image (i : option Image) (st : State Ext) : State Ext :=
  Build_State (temp_files st) (uploaded_files st) (client st)
              i (output_text st) (world st).
Definition set_output_text (t : string) (st : State Ext) : State Ext :=
  Build_State (temp_files st) (uploaded_files st) (client st)
              (output_image st) t (world st).
End Setters.

(** ** Control flow *)

(** A block ends normally, by an exception, or by [return]. *)
Inductive Outcome (A : Type) : Type :=
| Normal (a : A)
| Raise (e : Exception)
| Return (r : option Image * string).
Arguments Normal {A} a.
Arguments Raise {A} e.
Arguments Return {A} r.

Definition M (Ext : Type) (A : Type) : Type := State Ext → Outcome A * State Ext.

Global Instance M_ret {Ext} : MRet (M Ext) := λ A a st, (Normal a, st).
Global Instance M_bind {Ext} : MBind (M Ext) := λ A B k m st,
  match m st with
  | (Normal a, st') => k a st'
  | (Raise e, st') => (Raise e, st')
  | (Return r, st') => (Return r, st')
  end.

Section Control.
Context {Ext : Type}.
Abbreviation M := (M Ext).

Definition get {A} (f : State Ext → A) : M A := λ st, (Normal (f st), st).
Definition modify (f : State Ext → State Ext) : M unit := λ st, (Normal tt, f st).
Definition raise {A} (e : Exception) : M A := λ st, (Raise e, st).
Definition return_ {A} (r : option Image * string) : M A := λ st, (Return r, st).
Definition emit (ev : Event) : M unit := modify (set_world (add_event ev)).

(** An external call: the oracle runs on the external state. *)
Definition call {A} (f : Ext → external A * Ext) : M A := λ st,
  let '(r, σ) := f (ext (world st)) in
  match r with
  | Gives a => (Normal a, set_world (set_ext σ) st)
  | Throws e => (Raise e, set_world (set_ext σ) st)
  end.

(** A pure library function that may throw. *)
Definition lift {A} (r : external A) : M A :=
  match r with Gives a => mret a | Throws e => raise e end.

(** [try: body except Exception as e: handler e]. *)
Definition try_except {A} (body : M A) (handler : Exception → M A) : M A := λ st,
  match body st with
  | (Raise e, st') => handler e st'
  | r => r
  end.

(** [for x in l: body x]. *)
Fixpoint for_each {A} (l : list A) (body : A → M unit) : M unit :=
  match l with
  | [] => mret tt
  | x :: l' => body x;; for_each l' body
  end.

(** [l[i]]. *)
Definition index {A} (l : list A) (i : nat) : M A :=
  match l !! i with
  | Some x => mret x
  | None => raise {| exn_str := "list index out of range"; exn_name := "IndexError" |}
  end.
End Control.

(** ** [swap_clothing] (lines 44-184) *)

Definition FileNotFoundError (path : string) : Exception :=
  {| exn_str := "[Errno 2] No such file or directory: '" +:+ path +:+ "'";
     exn_name := "FileNotFoundError" |}.

Definition generate_content_config : GenerateContentConfig :=
  {| temperature := Qmake 99 1000;
     top_p := Qmake 95 100;
     top_k := 40;
     max_output_tokens := 8192;
     response_modalities := ["image"; "text"];
     safety_settings :=
       [ {| category := "HARM_CATEGORY_HARASSMENT"; threshold := "BLOCK_NONE" |};
         {| category := "HARM_CATEGORY_HATE_SPEECH"; threshold := "BLOCK_NONE" |};
         {| category := "HARM_CATEGORY_SEXUALLY_EXPLICIT"; threshold := "BLOCK_NONE" |};
         {| category := "HARM_CATEGORY_DANGEROUS_CONTENT"; threshold := "BLOCK_NONE" |} ];
     response_mime_type := "text/plain" |}.

Definition invalid_response_message : string :=
  "The model did not generate a valid response. Try again.".

Section Flow.
Context {Ext : Type} (E : Env Ext).
Abbreviation M := (M Ext).

(** *** Filesystem primitives *)

(** [tempfile.NamedTemporaryFile(suffix=..., delete=False)]: the file
    exists, empty, under the name the facility chose. *)
Definition tempfile (suffix : string) : M string :=
  files ← get (λ st, fs (world st));
  name ← call (NamedTemporaryFile E suffix files);
  modify (set_world (set_fs <[name := []]>));;
  emit (ETempFile name);;
  mret name.

(** [temp_file.write(image_data)]. *)
Definition write (name : string) (bs : list byte) : M unit :=
  emit (EWrite name);;
  modify (set_world (set_fs <[name := bs]>)).

Definition os_path_exists (path : string) : M bool :=
  get (λ st, bool_decide (is_Some (fs (world st) !! path))).

Definition os_unlink (path : string) : M unit :=
  emit (EUnlink path);;
  present ← os_path_exists path;
  if present : bool then modify (set_world (set_fs (delete path)))
  else raise (FileNotFoundError path).

(** [img.save(temp_file.name)]: PIL encodes by the extension and writes. *)
Definition save (img : Image) (name : string) : M unit :=
  emit (ESave name);;
  bs ← call (Image_save E img name);
  modify (set_world (set_fs <[name := bs]>)).

(** [Image.open(path)] and the copy of the decoded image. *)
Definition open_image (path : string) : M Image :=
  emit (EImageOpen path);;
  files ← get (λ st, fs (world st));
  match files !! path with
  | Some bs => img ← call (Image_open E bs); mret (Image_copy img)
  | None => raise (FileNotFoundError path)
  end.

(** *** Remote primitives *)

Definition new_client (api_key : string) : M Client :=
  emit (EClient api_key);;
  call (genai_Client E api_key);;
  mret {| client_api_key := api_key |}.

Definition upload (path : string) : M File :=
  emit (EUpload path);;
  files ← get (λ st, fs (world st));
  call (files_upload E path files).

Definition generate (model : string) (contents : list Content)
    (config : GenerateContentConfig) : M (option GenerateContentResponse) :=
  emit (EGenerate model contents);;
  call (generate_content E model contents config).

(** *** Lines 69-72: staging *)

Definition stage (img : Image) (prefix : string) : M unit :=
  name ← tempfile ".jpg";
  save img name;;
  modify (λ st, set_temp_files (temp_files st ++ [name]) st).

(** *** Lines 146-161: the walk over the response parts *)

Definition append_text (t : string) : M unit :=
  modify (λ st, set_output_text (output_text st +:+ t) st).

(** Lines 151-159, the body of the inner [try]. *)
Definition decode_part (blob : Blob) : M unit :=
  image_data ← match data blob with
               | DataBytes bs => mret bs
               | DataStr s => lift (b64decode E s)
               | DataNone =>
                   raise {| exn_str := "argument should be a bytes-like object or ASCII string, not 'NoneType'";
                            exn_name := "TypeError" |}
               end;
  temp_file_path ← tempfile ".png";
  write temp_file_path image_data;;
  img ← open_image temp_file_path;
  modify (set_output_image (Some img));;
  os_unlink temp_file_path.

Definition process_part (part : Part) : M unit :=
  match text part with
  | Some t => append_text (t +:+ nl)
  | None =>
      match inline_data part with
      | Some blob =>
          try_except (decode_part blob)
            (λ img_error,
               append_text ("Error processing image: " +:+ exn_str img_error +:+ nl))
      | None => mret tt
      end
  end.

(** Lines 143-163. *)
Definition process_response (response : option GenerateContentResponse) : M unit :=
  match response with
  | Some {| candidates := Some (candidate :: _) |} =>
      match content candidate with
      | Some c =>
          match parts c with
          | Some ps => for_each ps process_part
          | None =>
              raise {| exn_str := "'NoneType' object is not iterable";
                       exn_name := "TypeError" |}
          end
      | None => mret tt
      end
  | _ => modify (set_output_text invalid_response_message)
  end.

(** *** Lines 66-120: client, staging, upload and the request contents *)

Definition prepare (person_image clothing_image : Image)
    (chest waist hips height : Z) (output_mode : string)
    (api_key : string) : M (list Content) :=
  c ← new_client api_key;
  modify (set_client (Some c));;
  for_each [(person_image, "person"); (clothing_image, "clothing")]
           (λ '(img, prefix), stage img prefix);;
  tf ← get temp_files;
  p0 ← index tf 0;
  f0 ← upload p0;
  tf ← get temp_files;
  p1 ← index tf 1;
  f1 ← upload p1;
  modify (set_uploaded_files [f0; f1]);;
  let prompt := build_prompt chest waist hips height output_mode in
  mret [ {| role := Some "user";
            parts := Some
              [ Part_from_text "This is the person image. Do not change face or background.";
                Part_from_uri (uri f0) (mime_type f0);
                Part_from_text "This is the clothing image. Apply it on the person.";
                Part_from_uri (uri f1) (mime_type f1);
                Part_from_text prompt ] |} ].

(** *** Lines 66-141: from the client to the response *)

Definition request (person_image clothing_image : Image)
    (chest waist hips height : Z) (output_mode : string)
    (api_key : string) : M (option GenerateContentResponse) :=
  contents ← prepare person_image clothing_image chest waist hips height
                     output_mode api_key;
  generate "gemini-2.0-flash-exp" contents generate_content_config.

(** *** Lines 58-163: the [try] body *)

Definition try_body (person_image clothing_image : option Image)
    (chest waist hips height : Z) (output_mode : string) : M unit :=
  match person_image, clothing_image with
  | Some person, Some clothing =>
      let api_key := GEMINI_API_KEY E in
      if String.eqb api_key "" then
        return_ (None, "GEMINI_API_KEY not found. Please set it in your environment.")
      else
        response ← request person clothing chest waist hips height output_mode api_key;
        process_response response
  | _, _ => return_ (None, "Please upload both images.")
  end.

(** *** Lines 165-170: the handler of the outer [try] *)

Definition error_details (e : Exception) (warnings : list string) : string :=
  foldl (λ acc w, acc +:+ nl +:+ "- Warning: " +:+ w)
        ("Error: " +:+ exn_str e +:+ " | Type: " +:+ exn_name e)
        warnings.

(** *** Lines 172-182: the [finally] block *)

Definition remove_temp_file (temp_file : string) : M unit :=
  present ← os_path_exists temp_file;
  if present : bool then os_unlink temp_file else mret tt.

(** The bare [except: pass] swallows whatever the deletion throws,
    including the attribute error on a [client] that is still [None]. *)
Definition delete_uploaded (uploaded_file : File) : M unit :=
  try_except
    (cl ← get client;
     match cl with
     | Some _ =>
         emit (ERemoteDelete (uri uploaded_file));;
         call (files_delete E (uri uploaded_file))
     | None =>
         raise {| exn_str := "'NoneType' object has no attribute 'files'";
                  exn_name := "AttributeError" |}
     end)
    (λ _, mret tt).

Definition finally_block : M unit :=
  tf ← get temp_files;
  for_each tf remove_temp_file;;
  uf ← get uploaded_files;
  for_each uf delete_uploaded;;
  modify (set_client None).

(** *** The function *)

Definition initial (w : World Ext) : State Ext :=
  Build_State [] [] None None "" w.

(** What the [try]/[except] pair leaves for the [finally] block to return:
    a pending [return] value, or nothing when the body fell through. *)
Definition handled (o : Outcome unit) (st : State Ext) : option (option Image * string) :=
  match o with
  | Normal _ => None
  | Return r => Some r
  | Raise e => Some (None, error_details e (warning_list E (ext (world st))))
  end.

(** After the [finally] block: the pending [return], else line 184. *)
Definition conclude (r : Outcome unit * State Ext) : (option Image * string) * World Ext :=
  let '(o, st) := r in
  let pending := handled o st in
  let st' := (finally_block st).2 in
  match pending with
  | Some res => (res, world st')
  | None => ((output_image st', output_text st'), world st')
  end.

Definition swap_clothing (person_image clothing_image : option Image)
    (chest waist hips height : Z) (output_mode : string)
    (w : World Ext) : (option Image * string) * World Ext :=
  conclude (try_body person_image clothing_image chest waist hips height output_mode
                     (initial w)).
End Flow.

(** ** Vocabulary of the statements *)

Section Vocabulary.
Context {Ext : Type} (E : Env Ext).

(** The bytes handed to the image decoder for a payload: the payload itself
    when it is [bytes], its base64 decoding when it is a [str]. *)
Definition payload_bytes (d : BlobData) : option (list byte) :=
  match d with
  | DataBytes bs => Some bs
  | DataStr s => match b64decode E s with Gives bs => Some bs | Throws _ => None end
  | DataNone => None
  end.

(** A payload that never decodes, whatever the external state. *)
Definition undecodable (d : BlobData) : Prop :=
  match payload_bytes d with
  | Some bs => ∀ σ, ∃ e σ', Image_open E bs σ = (Throws e, σ')
  | None => True
  end.

(** An inline-image part: no text, an inline payload (lines 147-149). *)
Definition image_part (part : Part) : Prop :=
  text part = None ∧ inline_data part ≠ None.

(** A part that cannot set the output image: a text part, an empty part, or
    an inline-image part whose payload never decodes. *)
Definition yields_no_image (part : Part) : Prop :=
  match text part, inline_data part with
  | Some _, _ => True
  | None, None => True
  | None, Some blob => undecodable (data blob)
  end.

End Vocabulary.

(** ** Responses that differ in the candidates after the first *)

Definition map_other_candidates (f : list Candidate → list Candidate)
    (response : option GenerateContentResponse) : option GenerateContentResponse :=
  match response with
  | Some {| candidates := Some (first :: others) |} =>
      Some {| candidates := Some (first :: f others) |}
  | _ => response
  end.

(** The environment [E], except that every answer of the model has its
    candidates after the first rewritten by [f]. *)
Definition with_other_candidates {Ext : Type}
    (f : list Candidate → list Candidate) (E : Env Ext) : Env Ext :=
  {| GEMINI_API_KEY := GEMINI_API_KEY E;
     warning_list := warning_list E;
     genai_Client := genai_Client E;
     NamedTemporaryFile := NamedTemporaryFile E;
     Image_save := Image_save E;
     files_upload := files_upload E;
     generate_content := λ model contents config σ,
       let '(r, σ') := generate_content E model contents config σ in
       (match r with
        | Gives response => Gives (map_other_candidates f response)
        | Throws e => Throws e
        end, σ');
     files_delete := files_delete E;
     b64decode := b64decode E;
     Image_open := Image_open E |}.

(** ** A test double of the collaborators *)

Module Mock.

(** Big-endian 32-bit field of a PNG header. *)
Definition be32 (a b c d : byte) : N :=
  (((Byte.to_N a * 256 + Byte.to_N b) * 256 + Byte.to_N c) * 256 + Byte.to_N d)%N.

Definition png_signature : list byte := [x89; x50; x4e; x47; x0d; x0a; x1a; x0a].
Definition ihdr_tag : list byte := [x49; x48; x44; x52].

(** A decoder that reads the PNG signature and the IHDR dimensions and
    rejects everything else. *)
Definition decode_png (bs : list byte) : external Image :=
  if bool_decide (Byte.to_N <$> take 8 bs = Byte.to_N <$> png_signature
                  ∧ Byte.to_N <$> take 4 (drop 12 bs) = Byte.to_N <$> ihdr_tag)
  then
    match drop 16 bs with
    | w0 :: w1 :: w2 :: w3 :: h0 :: h1 :: h2 :: h3 :: rest =>
        Gives {| im_mode := "RGB";
                 im_size := (be32 w0 w1 w2 w3, be32 h0 h1 h2 h3);
                 im_data := rest |}
    | _ => Throws {| exn_str := "image file is truncated";
                     exn_name := "OSError" |}
    end
  else Throws {| exn_str := "cannot identify image file";
                 exn_name := "UnidentifiedImageError" |}.

(** A PNG header announcing [w] by [h] pixels (both below 256). *)
Definition png (w h : byte) : list byte :=
  png_signature ++ [x00; x00; x00; x0d] ++ ihdr_tag
    ++ [x00; x00; x00; w] ++ [x00; x00; x00; h] ++ [x08; x02; x00; x00; x00].

(** The JPEG writer refuses images with an alpha channel. *)
Definition encode_jpeg (img : Image) : external (list byte) :=
  if String.eqb (im_mode img) "RGBA"
  then Throws {| exn_str := "cannot write mode RGBA as JPEG"; exn_name := "OSError" |}
  else Gives ([xff; xd8; xff; xe0] ++ im_data img).

(** Base64 of the two headers used below, nothing else. *)
Definition decode_base64 (s : string) : external (list byte) :=
  if String.eqb s "iVBORw0KGgoAAAANSUhEUgAAAAIAAAADCAIAAAA="
  then Gives (png x02 x03)
  else Throws {| exn_str := "Incorrect padding"; exn_name := "Error" |}.

(** The external state counts the temporary names handed out. *)
Definition env (api_key : string)
    (answer : external (option GenerateContentResponse)) : Env nat :=
  {| GEMINI_API_KEY := api_key;
     warning_list := λ _, [];
     genai_Client := λ _ n, (Gives tt, n);
     NamedTemporaryFile := λ suffix _ n,
       (Gives ("/tmp/tmp" +:+ str_int (Z.of_nat n) +:+ suffix), S n);
     Image_save := λ img _ n, (encode_jpeg img, n);
     files_upload := λ path _ n,
       (Gives {| uri := "files/" +:+ path; mime_type := "image/jpeg" |}, n);
     generate_content := λ _ _ _ n, (answer, n);
     files_delete := λ _ n, (Gives tt, n);
     b64decode := decode_base64;
     Image_open := λ bs n, (decode_png bs, n) |}.

Definition photo : Image :=
  {| im_mode := "RGB"; im_size := (2, 2)%N; im_data := [x01; x02; x03] |}.
Definition shirt : Image :=
  {| im_mode := "RGB"; im_size := (1, 1)%N; im_data := [x07] |}.
Definition cutout : Image :=
  {| im_mode := "RGBA"; im_size := (1, 1)%N; im_data := [x07; xff] |}.

Definition world0 : World nat := {| fs := ∅; ext := 0%nat; log := [] |}.

Definition a_text (t : string) : Part :=
  {| text := Some t; inline_data := None; file_data := None |}.
Definition an_image (d : BlobData) : Part :=
  {| text := None; inline_data := Some {| data := d |}; file_data := None |}.

Definition answer_with (ps : list Part) : external (option GenerateContentResponse) :=
  Gives (Some {| candidates :=
    Some [ {| content := Some {| role := Some "model"; parts := Some ps |} |} ] |}).

End Mock.


(** ** Conditions on the collaborators *)

Section Conditions.
Context {Ext : Type} (E : Env Ext).

(** The temporary-file facility never hands out the name of a file that
    exists. *)
Definition fresh_names : Prop :=
  ∀ suffix (files : Files) σ name σ',
    NamedTemporaryFile E suffix files σ = (Gives name, σ') → files !! name = None.

(** The encoder accepts the image, under any name and at any time. *)
Definition saves (img : Image) : Prop :=
  ∀ name σ, ∃ bs σ', Image_save E img name σ = (Gives bs, σ').

(** The parts of the first candidate, when it has any. *)
Definition first_parts (response : option GenerateContentResponse) : list Part :=
  match response with
  | Some {| candidates := Some (candidate :: _) |} =>
      match content candidate with
      | Some {| parts := Some ps |} => ps
      | _ => []
      end
  | _ => []
  end.

(** An inline-image part whose payload, once it reaches the decoder, is read
    as an image; any other part. *)
Definition opens (part : Part) : Prop :=
  match text part, inline_data part with
  | None, Some blob =>
      match payload_bytes E (data blob) with
      | Some bs => ∀ σ, ∃ img σ', Image_open E bs σ = (Gives img, σ')
      | None => True
      end
  | _, _ => True
  end.

(** Every answer of the model carries, in its first candidate, only
    payloads that the decoder reads. *)
Definition answers_open : Prop :=
  ∀ model contents config σ response σ',
    generate_content E model contents config σ = (Gives response, σ') →
    Forall opens (first_parts response).

End Conditions.

(** The lines the outer handler adds for the recorded warnings
    (lines 167-169). *)
Definition warning_lines (warnings : list string) : string :=
  foldr (λ w acc, nl +:+ "- Warning: " +:+ w +:+ acc) "" warnings.

(** The texts of the parts, each followed by a line feed. *)
Definition joined_texts (ps : list Part) : string :=
  foldr (λ part acc, default "" (text part) +:+ nl +:+ acc) "" ps.

(** Operations on the local filesystem, as opposed to the remote ones. *)
Definition local_event (ev : Event) : Prop :=
  match ev with
  | ETempFile _ | ESave _ | EWrite _ | EImageOpen _ | EUnlink _ => True
  | EClient _ | EUpload _ | EGenerate _ _ | ERemoteDelete _ => False
  end.


(** The environment [E] with another [client.files.delete]. *)
Definition with_files_delete {Ext : Type}
    (delete : string → Ext → external unit * Ext) (E : Env Ext) : Env Ext :=
  {| GEMINI_API_KEY := GEMINI_API_KEY E;
     warning_list := warning_list E;
     genai_Client := genai_Client E;
     NamedTemporaryFile := NamedTemporaryFile E;
     Image_save := Image_save E;
     files_upload := files_upload E;
     generate_content := generate_content E;
     files_delete := delete;
     b64decode := b64decode E;
     Image_open := Image_open E |}.

(** ** The page: the [Generate] button (lines 212-222) *)

(** What the handler puts on the page. *)
Inductive Element :=
| st_image (image : Image) (caption : string) (width : Z)
| st_text (body : string)
| st_error (body : string).

Section Page.
Context {Ext : Type} (E : Env Ext).

(** [Image.open] on an uploaded file (lines 214-215); what it throws is not
    caught by the page. *)
Variable Image_open_upload : list byte → Ext → external Image * Ext.

(** The body of [if st.button("Generate")], given the two uploaders'
    values ([None]: nothing uploaded) and the widgets' values. *)
Definition generate_clicked (person_file clothing_file : option (list byte))
    (chest waist hips height : Z) (output_mode : string)
    (w : World Ext) : external (list Element) * World Ext :=
  match person_file, clothing_file with
  | Some pf, Some cf =>
      let '(r1, σ1) := Image_open_upload pf (ext w) in
      match r1 with
      | Throws e => (Throws e, set_ext σ1 w)
      | Gives person_image =>
          let '(r2, σ2) := Image_open_upload cf σ1 in
          match r2 with
          | Throws e => (Throws e, set_ext σ2 w)
          | Gives clothing_image =>
              let '((output_image, output_text), w') :=
                swap_clothing E (Some person_image) (Some clothing_image)
                              chest waist hips height output_mode (set_ext σ2 w) in
              (Gives (match output_image with
                      | Some img => [st_image img "Generated Output" 500]
                      | None => []
                      end ++ [st_text output_text]), w')
          end
      end
  | _, _ => (Gives [st_error "Please upload both images."], w)
  end.

End Page.

(** ** A second test double: fresh names *)

Module Mock2.

(** As [Mock.env], with a facility that picks a name outside the
    filesystem. *)
Definition env (api_key : string)
    (answer : external (option GenerateContentResponse)) : Env nat :=
  {| GEMINI_API_KEY := api_key;
     warning_list := λ _, [];
     genai_Client := λ _ n, (Gives tt, n);
     NamedTemporaryFile := λ suffix (files : Files) n,
       (Gives (fresh (dom files)), S n);
     Image_save := λ img _ n, (Mock.encode_jpeg img, n);
     files_upload := λ path _ n,
       (Gives {| uri := "files/" +:+ path; mime_type := "image/jpeg" |}, n);
     generate_content := λ _ _ _ n, (answer, n);
     files_delete := λ _ n, (Gives tt, n);
     b64decode := Mock.decode_base64;
     Image_open := λ bs n, (Mock.decode_png bs, n) |}.

End Mock2.

(** * Properties *)

(** ** Strings *)

Module StrFacts.
Import Str.

Lemma app_cons (x : ascii) (a b : string) :
  String x a +:+ b = String x (a +:+ b).
Proof. reflexivity. Qed.

Lemma app_assoc (a b c : string) : (a +:+ b) +:+ c = a +:+ b +:+ c.
Proof.
  induction a as [|x a IH]; [reflexivity|].
  now rewrite !app_cons, IH.
Qed.

Lemma app_nil_r (a : string) : a +:+ "" = a.
Proof.
  induction a as [|x a IH]; [reflexivity|].
  now rewrite app_cons, IH.
Qed.

Lemma occurs_app c a b : occurs c (a +:+ b) = occurs c a || occurs c b.
Proof.
  induction a as [|x a IH]; [reflexivity|].
  rewrite app_cons. simpl. destruct (Ascii.eqb c x); [reflexivity | exact IH].
Qed.

Lemma substring_of_here s post : substring_of s (s +:+ post).
Proof. exists "", post. reflexivity. Qed.

Lemma substring_of_skip s pre t : substring_of s t → substring_of s (pre +:+ t).
Proof.
  intros (p & q & ->). exists (pre +:+ p), q. now rewrite app_assoc.
Qed.

Lemma substring_of_end s pre : substring_of s (pre +:+ s).
Proof. exists pre, "". now rewrite app_nil_r. Qed.

Lemma substring_of_occurs c s t :
  substring_of s t → occurs c s = true → occurs c t = true.
Proof.
  intros (p & q & ->) Hc. rewrite !occurs_app, Hc.
  now rewrite orb_true_r.
Qed.

End StrFacts.

(** ** Decimal numerals hold digits and a sign only *)

Lemma string_of_uint_no_letter (c : ascii) (d : Decimal.uint) :
  (nat_of_ascii c > 57)%nat → Str.occurs c (NilEmpty.string_of_uint d) = false.
Proof.
  intros Hc.
  assert (Hne : ∀ x, (nat_of_ascii x ≤ 57)%nat → Ascii.eqb c x = false).
  { intros x Hx. apply Ascii.eqb_neq. intros ->. lia. }
  induction d; simpl; rewrite ?Hne by (vm_compute; lia); auto.
Qed.

Lemma str_int_no_letter (c : ascii) (z : Z) :
  (nat_of_ascii c > 57)%nat → Str.occurs c (str_int z) = false.
Proof.
  intros Hc. unfold str_int, NilZero.string_of_int.
  assert (Hne : ∀ x, (nat_of_ascii x ≤ 57)%nat → Ascii.eqb c x = false).
  { intros x Hx. apply Ascii.eqb_neq. intros ->. lia. }
  assert (Hu : ∀ d, Str.occurs c (NilZero.string_of_uint d) = false).
  { intros d. unfold NilZero.string_of_uint.
    destruct d; try apply string_of_uint_no_letter; try assumption.
    simpl. now rewrite Hne by (vm_compute; lia). }
  destruct (Z.to_int z); simpl; [apply Hu|].
  rewrite Hne by (vm_compute; lia). apply Hu.
Qed.

(** ** The prompt *)

Section Prompt.
Import Str StrFacts.
Variables chest waist hips height : Z.

(** The prompt before the mode-dependent clause. *)
Lemma build_prompt_2d (output_mode : string) :
  output_mode ≠ "3D Model" →
  build_prompt chest waist hips height output_mode =
    prompt_lit0 +:+ str_int chest +:+ prompt_lit1 +:+ str_int waist +:+
    prompt_lit2 +:+ str_int hips +:+ prompt_lit3 +:+ str_int height +:+
    prompt_lit4 +:+ output_mode +:+ prompt_lit5.
Proof.
  intros Hm. unfold build_prompt.
  destruct (String.eqb_spec output_mode "3D Model"); [contradiction | reflexivity].
Qed.

Lemma build_prompt_3d :
  build_prompt chest waist hips height "3D Model" =
    (prompt_lit0 +:+ str_int chest +:+ prompt_lit1 +:+ str_int waist +:+
     prompt_lit2 +:+ str_int hips +:+ prompt_lit3 +:+ str_int height +:+
     prompt_lit4 +:+ "3D Model" +:+ prompt_lit5) +:+ clause_3d.
Proof. reflexivity. Qed.

(** Each literal chunk after a field starts with [" inches"]. *)
Lemma field_then_inches (v rest tail : string) :
  substring_of (v +:+ " inches") (v +:+ (" inches" +:+ rest) +:+ tail).
Proof.
  exists "", (rest +:+ tail). simpl. now rewrite !app_assoc.
Qed.

(** For any measurements and any mode string, the four fields are rendered
    as "<value> inches". *)
Lemma build_prompt_mentions (output_mode : string) :
  let p := build_prompt chest waist hips height output_mode in
  substring_of (str_int chest +:+ " inches") p
  ∧ substring_of (str_int waist +:+ " inches") p
  ∧ substring_of (str_int hips +:+ " inches") p
  ∧ substring_of (str_int height +:+ " inches") p.
Proof.
  assert (H : ∀ tail,
    let p := (prompt_lit0 +:+ str_int chest +:+ prompt_lit1 +:+ str_int waist +:+
     prompt_lit2 +:+ str_int hips +:+ prompt_lit3 +:+ str_int height +:+
     prompt_lit4 +:+ output_mode +:+ prompt_lit5) +:+ tail in
    substring_of (str_int chest +:+ " inches") p
    ∧ substring_of (str_int waist +:+ " inches") p
    ∧ substring_of (str_int hips +:+ " inches") p
    ∧ substring_of (str_int height +:+ " inches") p).
  { intros tail p. subst p. rewrite !app_assoc.
    repeat split.
    - apply substring_of_skip. apply (field_then_inches _ "
            - Waist: ").
    - do 3 apply substring_of_skip. apply (field_then_inches _ "
            - Hips: ").
    - do 5 apply substring_of_skip. apply (field_then_inches _ "
            - Height: ").
    - do 7 apply substring_of_skip.
      apply (field_then_inches _ (String.substring 7 369 prompt_lit4)). }
  intros p. subst p. unfold build_prompt.
  destruct (String.eqb output_mode "3D Model").
  - apply H.
  - specialize (H ""). cbv zeta in H. now rewrite app_nil_r in H.
Qed.

(** The letter [q] of "mannequin" occurs in the clause and nowhere in the
    base prompt of the two-dimensional mode. *)
Lemma q_in_clause : occurs "q" clause_3d = true.
Proof. reflexivity. Qed.

Lemma q_not_in_2d_prompt :
  occurs "q" (build_prompt chest waist hips height "2D Image") = false.
Proof.
  rewrite build_prompt_2d by discriminate.
  rewrite !occurs_app, !str_int_no_letter by (vm_compute; lia).
  reflexivity.
Qed.

End Prompt.

(** C8. For chest, waist and hips in 20..60, height in 50..84 and either
    output mode, the prompt contains "<value> inches" for each of the four
    measurement values. *)
Theorem prompt_contains_measurements (chest waist hips height : Z) (output_mode : string) :
  20 ≤ chest ≤ 60 → 20 ≤ waist ≤ 60 → 20 ≤ hips ≤ 60 → 50 ≤ height ≤ 84 →
  output_mode ∈ output_modes →
  let prompt := build_prompt chest waist hips height output_mode in
  Str.substring_of (str_int chest +:+ " inches") prompt
  ∧ Str.substring_of (str_int waist +:+ " inches") prompt
  ∧ Str.substring_of (str_int hips +:+ " inches") prompt
  ∧ Str.substring_of (str_int height +:+ " inches") prompt.
Proof. intros _ _ _ _ _. apply build_prompt_mentions. Qed.

(** The default measurements of the page, in the three-dimensional mode. *)
Lemma prompt_contains_measurements_witness :
  let prompt := build_prompt 38 32 40 68 "3D Model" in
  Str.substring_of "38 inches" prompt
  ∧ Str.substring_of "32 inches" prompt
  ∧ Str.substring_of "40 inches" prompt
  ∧ Str.substring_of "68 inches" prompt.
Proof.
  apply (prompt_contains_measurements 38 32 40 68 "3D Model");
    [lia | lia | lia | lia | ].
  unfold output_modes. apply list_elem_of_In. simpl. auto.
Defined.

(** C9. For every measurement tuple and each of the two output modes, the
    prompt contains the three-dimensional rendering clause exactly when the
    mode is "3D Model"; for "2D Image" the clause is absent. *)
Theorem clause_3d_iff_3d_mode (chest waist hips height : Z) (output_mode : string) :
  output_mode ∈ output_modes →
  Str.substring_of clause_3d (build_prompt chest waist hips height output_mode)
  ↔ output_mode = "3D Model".
Proof.
  intros Hm. unfold output_modes in Hm.
  apply list_elem_of_In in Hm. simpl in Hm.
  destruct Hm as [<- | [<- | []]].
  - split; [|discriminate].
    intros Hs. pose proof (q_not_in_2d_prompt chest waist hips height) as Hq.
    rewrite (StrFacts.substring_of_occurs _ _ _ Hs (q_in_clause)) in Hq.
    discriminate.
  - split; [reflexivity|]. intros _.
    rewrite build_prompt_3d. apply StrFacts.substring_of_end.
Qed.

(** The default measurements of the page, in the two-dimensional mode. *)
Lemma clause_3d_iff_3d_mode_witness :
  Str.substring_of clause_3d (build_prompt 38 32 40 68 "2D Image")
  ↔ "2D Image" = "3D Model".
Proof.
  apply (clause_3d_iff_3d_mode 38 32 40 68 "2D Image").
  unfold output_modes. apply list_elem_of_In. simpl. auto.
Defined.

(** ** The guards (lines 59-64) *)

Section Guards.
Context {Ext : Type} (E : Env Ext).
Variables (chest waist hips height : Z) (output_mode : string).

(** C6. When the person image or the clothing image is absent, the call
    returns no image and "Please upload both images."; the world (files,
    external state, record of operations) is as before the call: no client
    was built, nothing was uploaded or generated. *)
Theorem missing_image_reported (person_image clothing_image : option Image)
    (w : World Ext) :
  person_image = None ∨ clothing_image = None →
  swap_clothing E person_image clothing_image chest waist hips height output_mode w
  = ((None, "Please upload both images."), w).
Proof.
  intros [-> | ->]; destruct w as [files σ l]; [|destruct person_image]; reflexivity.
Qed.

(** C7. With both images present and an empty credential, the call returns
    no image and the credential message; the world is as before the call:
    no temporary file, no remote operation. *)
Theorem missing_credential_reported (person clothing : Image) (w : World Ext) :
  GEMINI_API_KEY E = "" →
  swap_clothing E (Some person) (Some clothing) chest waist hips height output_mode w
  = ((None, "GEMINI_API_KEY not found. Please set it in your environment."), w).
Proof.
  intros Hkey. unfold swap_clothing, try_body. rewrite Hkey.
  destruct w as [files σ l]. reflexivity.
Qed.

End Guards.

(** A call without the clothing image. *)
Lemma missing_image_reported_witness :
  swap_clothing (Mock.env "secret" (Mock.answer_with [])) (Some Mock.photo) None
                38 32 40 68 "2D Image" Mock.world0
  = ((None, "Please upload both images."), Mock.world0).
Proof.
  apply (missing_image_reported (Mock.env "secret" (Mock.answer_with []))).
  right. reflexivity.
Defined.

(** A call with both images and the key as the source has it. *)
Lemma missing_credential_reported_witness :
  swap_clothing (Mock.env "" (Mock.answer_with [])) (Some Mock.photo) (Some Mock.shirt)
                38 32 40 68 "2D Image" Mock.world0
  = ((None, "GEMINI_API_KEY not found. Please set it in your environment."), Mock.world0).
Proof.
  apply (missing_credential_reported (Mock.env "" (Mock.answer_with []))).
  reflexivity.
Defined.

(** ** The walk over the parts *)

Ltac run :=
  unfold decode_part, tempfile, write, save, open_image, os_unlink, os_path_exists,
    new_client, upload, generate, stage, index,
    append_text, emit, call, lift, get, modify, raise, return_, try_except,
    mbind, mret, M_bind, M_ret in *; simpl in *.

Section Walk.
Context {Ext : Type} (E : Env Ext).
Import StrFacts.

(** The inner [try] body ends normally or raises, and touches neither the
    text nor the lists the [finally] block reads. *)
Lemma decode_part_frame (blob : Blob) (st st' : State Ext) (o : Outcome unit) :
  decode_part E blob st = (o, st') →
  (o = Normal tt ∨ ∃ e, o = Raise e)
  ∧ output_text st' = output_text st
  ∧ temp_files st' = temp_files st
  ∧ uploaded_files st' = uploaded_files st
  ∧ client st' = client st.
Proof.
  intros H. run.
  repeat (case_match; simplify_eq/=); eauto 10.
Qed.

(** A part never ends the walk: whatever happens while decoding is turned
    into text. *)
Lemma process_part_normal (part : Part) (st : State Ext) :
  ∃ st' suffix,
    process_part E part st = (Normal tt, st')
    ∧ output_text st' = output_text st +:+ suffix
    ∧ temp_files st' = temp_files st
    ∧ uploaded_files st' = uploaded_files st
    ∧ client st' = client st.
Proof.
  unfold process_part. destruct (text part) as [t|].
  { eexists _, (t +:+ nl). run. eauto. }
  destruct (inline_data part) as [blob|].
  2:{ exists st, "". run. rewrite app_nil_r. eauto. }
  unfold try_except.
  destruct (decode_part E blob st) as [o st'] eqn:Hd.
  destruct (decode_part_frame _ _ _ _ Hd) as ([-> | [e ->]] & Ht & Hf & Hu & Hc).
  - exists st', "". rewrite app_nil_r. eauto.
  - eexists _, _. run. split; [reflexivity|]. simpl. rewrite Ht. eauto.
Qed.

Lemma walk_normal (ps : list Part) (st : State Ext) :
  ∃ st' suffix,
    for_each ps (process_part E) st = (Normal tt, st')
    ∧ output_text st' = output_text st +:+ suffix
    ∧ temp_files st' = temp_files st
    ∧ uploaded_files st' = uploaded_files st
    ∧ client st' = client st.
Proof.
  revert st. induction ps as [|part ps IH]; intros st.
  { exists st, "". rewrite app_nil_r. eauto. }
  destruct (process_part_normal part st) as (st1 & s1 & H1 & Ht1 & Hf1 & Hu1 & Hc1).
  destruct (IH st1) as (st2 & s2 & H2 & Ht2 & Hf2 & Hu2 & Hc2).
  exists st2, (s1 +:+ s2). simpl. unfold mbind, M_bind. rewrite H1, H2.
  rewrite Ht2, Ht1, app_assoc. repeat split; congruence.
Qed.

(** The walk over [before ++ part :: after] is the walk over [before], then
    [part], then the walk over [after]. *)
Lemma walk_app (before after : list Part) (st st1 : State Ext) :
  for_each before (process_part E) st = (Normal tt, st1) →
  for_each (before ++ after) (process_part E) st
  = for_each after (process_part E) st1.
Proof.
  revert st. induction before as [|p before IH]; intros st H; simpl in *.
  { unfold mret, M_ret in H. congruence. }
  unfold mbind, M_bind in *.
  destruct (process_part_normal p st) as (st0 & s & Hp & _).
  rewrite Hp in *. auto.
Qed.

(** A part that yields no image leaves the image found so far. *)
Lemma yields_no_image_keeps (part : Part) (st st' : State Ext) (o : Outcome unit) :
  yields_no_image E part →
  process_part E part st = (o, st') →
  output_image st' = output_image st.
Proof.
  unfold yields_no_image, process_part, undecodable, payload_bytes.
  destruct (text part) as [t|]; [intros _ H; run; by simplify_eq/=|].
  destruct (inline_data part) as [[d]|]; [|intros _ H; run; by simplify_eq/=].
  intros Hu H. run.
  destruct d as [bs | s |]; simpl in *.
  - repeat (case_match; simplify_eq/=); try reflexivity;
      match goal with
      | Ho : Image_open E ?b ?σ = (Gives _, _) |- _ =>
          destruct (Hu σ) as (e & σ' & Hx); rewrite lookup_insert_eq in *;
          simplify_eq; congruence
      end.
  - destruct (b64decode E s) as [bs|e]; simpl in *; [|by simplify_eq/=].
    repeat (case_match; simplify_eq/=); try reflexivity;
      match goal with
      | Ho : Image_open E ?b ?σ = (Gives _, _) |- _ =>
          destruct (Hu σ) as (e & σ' & Hx); rewrite lookup_insert_eq in *;
          simplify_eq; congruence
      end.
  - by simplify_eq/=.
Qed.

Lemma walk_keeps_image (ps : list Part) (st st' : State Ext) :
  Forall (yields_no_image E) ps →
  for_each ps (process_part E) st = (Normal tt, st') →
  output_image st' = output_image st.
Proof.
  intros Hall. revert st. induction Hall as [|p ps Hp _ IH]; intros st H; simpl in H.
  { unfold mret, M_ret in H. congruence. }
  unfold mbind, M_bind in H.
  destruct (process_part E p st) as [o st0] eqn:Hpp.
  destruct (process_part_normal p st) as (st0' & s & Hp' & _).
  rewrite Hpp in Hp'. simplify_eq.
  rewrite (IH _ H). eapply yields_no_image_keeps; eauto.
Qed.

End Walk.

(** ** The [finally] block *)

Section Cleanup.
Context {Ext : Type} (E : Env Ext).

Lemma remove_temp_file_spec (path : string) (st : State Ext) :
  ∃ st', remove_temp_file path st = (Normal tt, st')
    ∧ fs (world st') = delete path (fs (world st))
    ∧ output_image st' = output_image st
    ∧ output_text st' = output_text st
    ∧ uploaded_files st' = uploaded_files st
    ∧ client st' = client st.
Proof.
  unfold remove_temp_file. run.
  destruct (bool_decide (is_Some (fs (world st) !! path))) eqn:Hp; simpl.
  - rewrite Hp. eexists; split; [reflexivity|]. simpl. eauto 10.
  - exists st. repeat split; try reflexivity.
    apply bool_decide_eq_false in Hp.
    symmetry. apply delete_id. by apply eq_None_not_Some.
Qed.

Lemma remove_temp_files_spec (paths : list string) (st : State Ext) :
  ∃ st', for_each paths remove_temp_file st = (Normal tt, st')
    ∧ fs (world st') = foldl (λ files p, delete p files) (fs (world st)) paths
    ∧ output_image st' = output_image st
    ∧ output_text st' = output_text st
    ∧ uploaded_files st' = uploaded_files st
    ∧ client st' = client st.
Proof.
  revert st. induction paths as [|p paths IH]; intros st; simpl.
  { exists st. unfold mret, M_ret. eauto 10. }
  destruct (remove_temp_file_spec p st) as (st1 & H1 & Hf1 & Hi1 & Ht1 & Hu1 & Hc1).
  destruct (IH st1) as (st2 & H2 & Hf2 & Hi2 & Ht2 & Hu2 & Hc2).
  exists st2. unfold mbind, M_bind. rewrite H1, H2.
  rewrite Hf2, Hf1. repeat split; congruence.
Qed.

Lemma delete_uploaded_spec (f : File) (st : State Ext) :
  ∃ st', delete_uploaded E f st = (Normal tt, st')
    ∧ fs (world st') = fs (world st)
    ∧ output_image st' = output_image st
    ∧ output_text st' = output_text st.
Proof.
  unfold delete_uploaded. run.
  repeat (case_match; simplify_eq/=);
    repeat match goal with a : unit |- _ => destruct a end; eexists; eauto.
Qed.

Lemma delete_uploads_spec (files : list File) (st : State Ext) :
  ∃ st', for_each files (delete_uploaded E) st = (Normal tt, st')
    ∧ fs (world st') = fs (world st)
    ∧ output_image st' = output_image st
    ∧ output_text st' = output_text st.
Proof.
  revert st. induction files as [|f files IH]; intros st; simpl.
  { exists st. unfold mret, M_ret. eauto. }
  destruct (delete_uploaded_spec f st) as (st1 & H1 & Hf1 & Hi1 & Ht1).
  destruct (IH st1) as (st2 & H2 & Hf2 & Hi2 & Ht2).
  exists st2. unfold mbind, M_bind. rewrite H1, H2. repeat split; congruence.
Qed.

(** The block always runs to its end; it keeps the image and the text and
    removes from the filesystem exactly the paths listed in [temp_files]. *)
Lemma finally_block_spec (st : State Ext) :
  ∃ st', finally_block E st = (Normal tt, st')
    ∧ fs (world st') = foldl (λ files p, delete p files) (fs (world st)) (temp_files st)
    ∧ output_image st' = output_image st
    ∧ output_text st' = output_text st.
Proof.
  unfold finally_block.
  destruct (remove_temp_files_spec (temp_files st) st)
    as (st1 & H1 & Hf1 & Hi1 & Ht1 & Hu1 & Hc1).
  destruct (delete_uploads_spec (uploaded_files st1) st1) as (st2 & H2 & Hf2 & Hi2 & Ht2).
  eexists. unfold mbind, M_bind, get, modify. rewrite H1, H2.
  split; [reflexivity|]. simpl. repeat split; congruence.
Qed.

Lemma foldl_delete_lookup (paths : list string) (files : Files) (p : string) :
  p ∈ paths → foldl (λ files p, delete p files) files paths !! p = None.
Proof.
  revert files. induction paths as [|q paths IH]; intros files Hin; simpl.
  { by apply elem_of_nil in Hin. }
  destruct (decide (p ∈ paths)) as [Hp | Hp]; [by apply IH|].
  apply elem_of_cons in Hin as [-> | ?]; [|contradiction].
  clear IH. revert files. induction paths as [|r paths IH]; intros files; simpl.
  - apply lookup_delete_eq.
  - rewrite not_elem_of_cons in Hp. destruct Hp as [Hne Hp].
    rewrite delete_delete. by apply IH.
Qed.

(** Every path the flow registered in [temp_files] is gone when the block
    ends. *)
Lemma finally_removes_registered (st : State Ext) (p : string) :
  p ∈ temp_files st →
  fs (world (finally_block E st).2) !! p = None.
Proof.
  intros Hin. destruct (finally_block_spec st) as (st' & H & Hf & _).
  rewrite H. simpl. rewrite Hf. by apply foldl_delete_lookup.
Qed.

(** A body that fell through returns the image and the text it left. *)
Lemma conclude_normal (st : State Ext) :
  (conclude E (Normal tt, st)).1 = (output_image st, output_text st).
Proof.
  unfold conclude. simpl.
  destruct (finally_block_spec st) as (st' & H & _ & Hi & Ht).
  rewrite H. simpl. by rewrite Hi, Ht.
Qed.

End Cleanup.

(** ** From the request to the response *)

Section Response.
Context {Ext : Type} (E : Env Ext).
Variables (person clothing : Image) (chest waist hips height : Z) (output_mode : string).
Import StrFacts.

(** The request phase leaves the image and the text as they were. *)
Lemma request_frame (api_key : string) (st st1 : State Ext)
    (o : Outcome (option GenerateContentResponse)) :
  request E person clothing chest waist hips height output_mode api_key st = (o, st1) →
  output_image st1 = output_image st ∧ output_text st1 = output_text st.
Proof.
  unfold request, prepare. intros H.
  repeat (first [progress run | case_match]; simplify_eq/=); eauto.
Qed.

(** The last thing a successful request did is the generation call, with
    the built prompt as the last part of the user content. *)
Lemma request_sends_prompt (api_key : string) (st st1 : State Ext)
    (response : option GenerateContentResponse) :
  request E person clothing chest waist hips height output_mode api_key st
    = (Normal response, st1) →
  ∃ l before,
    log (world st1) =
      l ++ [EGenerate "gemini-2.0-flash-exp"
              [ {| role := Some "user";
                   parts := Some (before ++
                     [Part_from_text
                        (build_prompt chest waist hips height output_mode)]) |} ]].
Proof.
  unfold request, prepare. intros H.
  repeat (first [progress run | case_match]; simplify_eq/=).
  eexists _, [_; _; _; _]. reflexivity.
Qed.

(** A run whose request phase obtained [response] ends as the walk over
    that response followed by the [finally] block. *)
Lemma swap_clothing_reaches (w : World Ext) (st1 : State Ext)
    (response : option GenerateContentResponse) :
  GEMINI_API_KEY E ≠ "" →
  request E person clothing chest waist hips height output_mode (GEMINI_API_KEY E)
          (initial w) = (Normal response, st1) →
  swap_clothing E (Some person) (Some clothing) chest waist hips height output_mode w
  = conclude E (process_response E response st1).
Proof.
  intros Hkey Hreq. unfold swap_clothing, try_body.
  destruct (String.eqb_spec (GEMINI_API_KEY E) ""); [contradiction|].
  unfold mbind, M_bind. by rewrite Hreq.
Qed.

(** X12. The response carries no candidate ([None], no [candidates]
    value, or an empty list): the call returns no image and the fixed
    message of line 163. *)
Lemma no_candidates_reported (w : World Ext) (st1 : State Ext)
    (response : option GenerateContentResponse) :
  GEMINI_API_KEY E ≠ "" →
  request E person clothing chest waist hips height output_mode (GEMINI_API_KEY E)
          (initial w) = (Normal response, st1) →
  (response = None ∨ ∃ r, response = Some r ∧ (candidates r = None ∨ candidates r = Some [])) →
  (swap_clothing E (Some person) (Some clothing) chest waist hips height output_mode w).1
  = (None, invalid_response_message).
Proof.
  intros Hkey Hreq Hno.
  erewrite swap_clothing_reaches by eassumption.
  pose proof Hreq as Hfr. apply request_frame in Hfr as [Hi _]. simpl in Hi.
  assert (process_response E response st1
          = (Normal tt, set_output_text invalid_response_message st1)) as ->.
  { destruct Hno as [-> | ([cs] & -> & [Hc | Hc])]; [reflexivity | | ];
      simpl in Hc; subst; reflexivity. }
  rewrite conclude_normal. simpl. by rewrite Hi.
Qed.

(** C4. When the first candidate's content is one text part followed by one
    inline-image part whose bytes the decoder reads as [img], the call
    returns an image of the pixel dimensions of [img] and the text of the
    text part followed by one line feed. *)
Theorem text_then_png_returned (w : World Ext) (st1 : State Ext)
    (response : GenerateContentResponse) (candidate : Candidate)
    (others : list Candidate) (c : Content) (text_part png_part : Part)
    (t : string) (blob : Blob) (png : list byte)
    (path : string) (σ1 σ2 : Ext) (img : Image) :
  GEMINI_API_KEY E ≠ "" →
  request E person clothing chest waist hips height output_mode (GEMINI_API_KEY E)
          (initial w) = (Normal (Some response), st1) →
  candidates response = Some (candidate :: others) →
  content candidate = Some c →
  parts c = Some [text_part; png_part] →
  text text_part = Some t →
  text png_part = None →
  inline_data png_part = Some blob →
  data blob = DataBytes png →
  NamedTemporaryFile E ".png" (fs (world st1)) (ext (world st1)) = (Gives path, σ1) →
  Image_open E png σ1 = (Gives img, σ2) →
  ∃ out,
    (swap_clothing E (Some person) (Some clothing) chest waist hips height output_mode w).1
    = (Some out, t +:+ nl)
    ∧ im_size out = im_size img.
Proof.
  intros Hkey Hreq Hcs Hc Hps Ht Hn Hb Hd Htmp Hopen.
  erewrite swap_clothing_reaches by eassumption.
  pose proof Hreq as Hfr. apply request_frame in Hfr as [_ Htxt]. simpl in Htxt.
  destruct response as [cs]. simpl in Hcs. subst cs.
  destruct blob as [d]. simpl in Hd. subst d.
  assert (∃ st', process_response E
                   (Some {| candidates := Some (candidate :: others) |}) st1
                 = (Normal tt, st')
                 ∧ output_image st' = Some (Image_copy img)
                 ∧ output_text st' = output_text st1 +:+ t +:+ nl)
    as (st' & -> & Hi & Ho).
  { unfold process_response. rewrite Hc, Hps. simpl.
    unfold process_part. rewrite Ht, Hn, Hb.
    run. rewrite Htmp. simpl. rewrite lookup_insert_eq. simpl.
    rewrite Hopen. simpl. rewrite lookup_insert_eq. simpl.
    eexists. split; [reflexivity|]. split; reflexivity. }
  exists (Image_copy img). split; [|reflexivity].
  by rewrite conclude_normal, Hi, Ho, Htxt.
Qed.

(** The text an undecodable part contributes (line 161). *)
Lemma process_part_raise (part : Part) (blob : Blob) (e : Exception)
    (st2 st3 : State Ext) :
  text part = None →
  inline_data part = Some blob →
  decode_part E blob st2 = (Raise e, st3) →
  process_part E part st2
  = (Normal tt,
     set_output_text
       (output_text st2 +:+ "Error processing image: " +:+ exn_str e +:+ nl) st3).
Proof.
  intros Ht Hb Hd. unfold process_part, try_except. rewrite Ht, Hb, Hd.
  apply decode_part_frame in Hd as (_ & Hx & _).
  unfold append_text, modify. by rewrite Hx.
Qed.

(** C5. When decoding the inline payload of a part raises, the description
    "Error processing image: <message>" and a line feed are appended to the
    text accumulated so far, the remaining parts are walked from there, and
    the call returns what that walk leaves: nothing is raised. *)
Theorem decode_failure_is_local (w : World Ext) (st1 st2 st3 : State Ext)
    (response : GenerateContentResponse) (candidate : Candidate)
    (others : list Candidate) (c : Content)
    (before after : list Part) (part : Part) (blob : Blob) (e : Exception) :
  GEMINI_API_KEY E ≠ "" →
  request E person clothing chest waist hips height output_mode (GEMINI_API_KEY E)
          (initial w) = (Normal (Some response), st1) →
  candidates response = Some (candidate :: others) →
  content candidate = Some c →
  parts c = Some (before ++ part :: after) →
  text part = None →
  inline_data part = Some blob →
  for_each before (process_part E) st1 = (Normal tt, st2) →
  decode_part E blob st2 = (Raise e, st3) →
  ∃ st4 rest,
    for_each after (process_part E)
      (set_output_text
         (output_text st2 +:+ "Error processing image: " +:+ exn_str e +:+ nl) st3)
    = (Normal tt, st4)
    ∧ swap_clothing E (Some person) (Some clothing) chest waist hips height output_mode w
      = conclude E (Normal tt, st4)
    ∧ (swap_clothing E (Some person) (Some clothing) chest waist hips height
                     output_mode w).1.2
      = output_text st2 +:+ "Error processing image: " +:+ exn_str e +:+ nl +:+ rest.
Proof.
  intros Hkey Hreq Hcs Hc Hps Ht Hb Hbefore Hd.
  erewrite swap_clothing_reaches by eassumption.
  destruct response as [cs]. simpl in Hcs. subst cs.
  unfold process_response. rewrite Hc, Hps.
  rewrite (walk_app E before (part :: after) st1 st2 Hbefore).
  simpl. unfold mbind, M_bind.
  rewrite (process_part_raise part blob e st2 st3 Ht Hb Hd).
  match goal with |- context [for_each after _ ?s] =>
    destruct (walk_normal E after s) as (st4 & rest & Hw & Htxt & _) end.
  exists st4, rest. rewrite Hw. split; [reflexivity|]. split; [reflexivity|].
  rewrite conclude_normal. simpl. rewrite Htxt. simpl.
  by rewrite !app_assoc.
Qed.

(** The image a decodable part leaves. *)
Lemma process_part_decodes (part : Part) (blob : Blob) (bs : list byte)
    (path : string) (σ1 σ2 : Ext) (img : Image) (st2 : State Ext) :
  text part = None →
  inline_data part = Some blob →
  payload_bytes E (data blob) = Some bs →
  NamedTemporaryFile E ".png" (fs (world st2)) (ext (world st2)) = (Gives path, σ1) →
  Image_open E bs σ1 = (Gives img, σ2) →
  ∃ st3, process_part E part st2 = (Normal tt, st3)
         ∧ output_image st3 = Some (Image_copy img).
Proof.
  intros Ht Hb Hp Htmp Hopen. unfold process_part. rewrite Ht, Hb.
  destruct blob as [d]. simpl in Hp. unfold payload_bytes in Hp.
  assert (Hgo : ∀ k : list byte → M Ext unit,
            (match d with
             | DataBytes bs => mret bs
             | DataStr s => lift (b64decode E s)
             | DataNone =>
                 raise {| exn_str := "argument should be a bytes-like object or ASCII string, not 'NoneType'";
                          exn_name := "TypeError" |}
             end ≫= k) st2 = k bs st2).
  { intros k. destruct d as [bs' | s |]; [| destruct (b64decode E s) eqn:Hs |];
      simplify_eq; unfold mbind, M_bind, mret, M_ret, lift; simpl; reflexivity. }
  unfold try_except, decode_part. simpl. rewrite Hgo.
  run. rewrite Htmp. simpl. rewrite lookup_insert_eq. simpl.
  rewrite Hopen. simpl. rewrite lookup_insert_eq. simpl.
  eexists. split; reflexivity.
Qed.

(** C3, as the code has it. The image returned is the one decoded from the
    last inline-image part that decodes: a part without text whose payload,
    taken as raw bytes or decoded from base64 text, the decoder reads as
    [img], followed only by parts that yield no image. *)
Theorem last_decodable_image_returned (w : World Ext) (st1 st2 : State Ext)
    (response : GenerateContentResponse) (candidate : Candidate)
    (others : list Candidate) (c : Content)
    (before after : list Part) (part : Part) (blob : Blob) (bs : list byte)
    (path : string) (σ1 σ2 : Ext) (img : Image) :
  GEMINI_API_KEY E ≠ "" →
  request E person clothing chest waist hips height output_mode (GEMINI_API_KEY E)
          (initial w) = (Normal (Some response), st1) →
  candidates response = Some (candidate :: others) →
  content candidate = Some c →
  parts c = Some (before ++ part :: after) →
  text part = None →
  inline_data part = Some blob →
  payload_bytes E (data blob) = Some bs →
  for_each before (process_part E) st1 = (Normal tt, st2) →
  NamedTemporaryFile E ".png" (fs (world st2)) (ext (world st2)) = (Gives path, σ1) →
  Image_open E bs σ1 = (Gives img, σ2) →
  Forall (yields_no_image E) after →
  (swap_clothing E (Some person) (Some clothing) chest waist hips height output_mode w).1.1
  = Some (Image_copy img).
Proof.
  intros Hkey Hreq Hcs Hc Hps Ht Hb Hp Hbefore Htmp Hopen Hafter.
  erewrite swap_clothing_reaches by eassumption.
  destruct response as [cs]. simpl in Hcs. subst cs.
  unfold process_response. rewrite Hc, Hps.
  rewrite (walk_app E before (part :: after) st1 st2 Hbefore).
  simpl. unfold mbind, M_bind.
  destruct (process_part_decodes part blob bs path σ1 σ2 img st2 Ht Hb Hp Htmp Hopen)
    as (st3 & -> & Hi).
  destruct (walk_normal E after st3) as (st4 & rest & Hw & _).
  rewrite Hw, conclude_normal. simpl.
  by rewrite (walk_keeps_image E after st3 st4 Hafter Hw).
Qed.

(** A first candidate without content leaves the text empty. *)
Lemma contentless_candidate_silent (w : World Ext) (st1 : State Ext)
    (candidate : Candidate) (others : list Candidate) :
  GEMINI_API_KEY E ≠ "" →
  request E person clothing chest waist hips height output_mode (GEMINI_API_KEY E)
          (initial w)
    = (Normal (Some {| candidates := Some (candidate :: others) |}), st1) →
  content candidate = None →
  (swap_clothing E (Some person) (Some clothing) chest waist hips height output_mode w).1
  = (None, "").
Proof.
  intros Hkey Hreq Hc.
  erewrite swap_clothing_reaches by eassumption.
  pose proof Hreq as Hfr. apply request_frame in Hfr as [Hi Ht]. simpl in Hi, Ht.
  unfold process_response. rewrite Hc. unfold mret, M_ret.
  by rewrite conclude_normal, Hi, Ht.
Qed.

End Response.

(** ** Candidates after the first *)

Section Candidates.
Context {Ext : Type} (E : Env Ext).
Variable f : list Candidate → list Candidate.

Lemma process_response_other_candidates
    (response : option GenerateContentResponse) (st : State Ext) :
  process_response (with_other_candidates f E) (map_other_candidates f response) st
  = process_response E response st.
Proof.
  destruct response as [[[[|first others]|]]|]; reflexivity.
Qed.

Lemma request_other_candidates (person clothing : Image)
    (chest waist hips height : Z) (output_mode api_key : string) (st : State Ext) :
  request (with_other_candidates f E) person clothing chest waist hips height
          output_mode api_key st
  = match request E person clothing chest waist hips height output_mode api_key st with
    | (Normal response, st') => (Normal (map_other_candidates f response), st')
    | r => r
    end.
Proof.
  unfold request, mbind, M_bind.
  change (prepare (with_other_candidates f E)) with (prepare E).
  destruct (prepare E person clothing chest waist hips height output_mode api_key st)
    as [[contents | e | r] st0]; try reflexivity.
  unfold generate, emit, modify, call, mbind, M_bind. simpl.
  destruct (generate_content E _ _ _ _) as [[response | e] σ]; reflexivity.
Qed.

(** C10. Only the first candidate is examined: rewriting the candidates
    after the first in every answer of the model changes neither the image
    nor the text returned, nor anything the call does to the world. *)
Theorem other_candidates_ignored (person_image clothing_image : option Image)
    (chest waist hips height : Z) (output_mode : string) (w : World Ext) :
  swap_clothing (with_other_candidates f E) person_image clothing_image
                chest waist hips height output_mode w
  = swap_clothing E person_image clothing_image chest waist hips height output_mode w.
Proof.
  unfold swap_clothing, try_body.
  destruct person_image as [person|], clothing_image as [clothing|]; try reflexivity.
  change (GEMINI_API_KEY (with_other_candidates f E)) with (GEMINI_API_KEY E).
  destruct (String.eqb (GEMINI_API_KEY E) ""); [reflexivity|].
  unfold mbind, M_bind. rewrite request_other_candidates.
  destruct (request E person clothing chest waist hips height output_mode
                    (GEMINI_API_KEY E) (initial w)) as [[response | e | r] st1];
    try reflexivity.
  rewrite process_response_other_candidates.
  destruct (process_response E response st1) as [[[] | e | r] st2]; reflexivity.
Qed.

End Candidates.

(** ** Runs of the test double *)

(** Two answers that differ only after the first candidate, the first of
    which carries no image: the second candidate's image is not returned. *)
Example second_candidate_image_unused :
  (swap_clothing
     (Mock.env "secret"
        (Gives (Some {| candidates := Some
           [ {| content := Some {| role := Some "model";
                                   parts := Some [Mock.a_text "Sorry."] |} |};
             {| content := Some {| role := Some "model";
                                   parts := Some [Mock.an_image (DataBytes (Mock.png x02 x03))] |} |} ] |})))
     (Some Mock.photo) (Some Mock.shirt) 38 32 40 68 "2D Image" Mock.world0).1
  = (None, "Sorry." +:+ nl).
Proof. vm_compute. reflexivity. Qed.

(** C1, on the decoding path. The payload of the only part is not an image:
    the file created for it on line 154 did not exist before the call and is
    still there, with the payload in it, after the call has returned. *)
Theorem undecodable_payload_leaves_tempfile :
  let r := swap_clothing
             (Mock.env "secret" (Mock.answer_with [Mock.an_image (DataBytes [x00])]))
             (Some Mock.photo) (Some Mock.shirt) 38 32 40 68 "2D Image" Mock.world0 in
  r.1 = (None, "Error processing image: cannot identify image file" +:+ nl)
  ∧ In (ETempFile "/tmp/tmp2.png") (log r.2)
  ∧ fs Mock.world0 !! "/tmp/tmp2.png" = None
  ∧ fs r.2 !! "/tmp/tmp2.png" = Some [x00].
Proof. vm_compute. tauto. Qed.

(** The same leak on the staging path. The clothing image has an alpha channel and
    the JPEG writer refuses it: the second staging file, created on line 70
    and not yet listed in [temp_files], survives the [finally] block. *)
Lemma failed_save_leaves_staging_file :
  let r := swap_clothing
             (Mock.env "secret" (Mock.answer_with []))
             (Some Mock.photo) (Some Mock.cutout) 38 32 40 68 "2D Image" Mock.world0 in
  r.1 = (None, "Error: cannot write mode RGBA as JPEG | Type: OSError")
  ∧ In (ETempFile "/tmp/tmp1.jpg") (log r.2)
  ∧ fs Mock.world0 !! "/tmp/tmp1.jpg" = None
  ∧ fs r.2 !! "/tmp/tmp1.jpg" = Some [].
Proof. vm_compute. tauto. Qed.

(** C2, on a first candidate without content: the text returned is empty,
    not the fixed message. *)
Theorem contentless_candidate_gets_empty_text :
  let r := swap_clothing
             (Mock.env "secret"
                (Gives (Some {| candidates := Some [ {| content := None |} ] |})))
             (Some Mock.photo) (Some Mock.shirt) 38 32 40 68 "2D Image" Mock.world0 in
  r.1 = (None, "") ∧ r.1.2 ≠ invalid_response_message.
Proof. vm_compute. split; [reflexivity | discriminate]. Qed.

(** C3 as stated fails: with two inline-image parts that both decode, the
    image returned is not the one decoded from the first payload. *)
Lemma first_image_not_returned :
  let first := Mock.png x02 x03 in
  let second := Mock.png x04 x05 in
  let r := swap_clothing
             (Mock.env "secret"
                (Mock.answer_with [Mock.an_image (DataBytes first);
                                   Mock.an_image (DataBytes second)]))
             (Some Mock.photo) (Some Mock.shirt) 38 32 40 68 "2D Image" Mock.world0 in
  ∃ img1 img2,
    Mock.decode_png first = Gives img1
    ∧ Mock.decode_png second = Gives img2
    ∧ r.1.1 = Some (Image_copy img2)
    ∧ r.1.1 ≠ Some (Image_copy img1).
Proof.
  vm_compute. eexists _, _.
  split; [reflexivity|]. split; [reflexivity|]. split; [reflexivity|].
  discriminate.
Qed.

(** ** The conditional statements at the test double *)

(** A text part and the header of a 2 by 3 PNG. *)
Lemma text_then_png_returned_witness :
  ∃ out,
    (swap_clothing
       (Mock.env "secret"
          (Mock.answer_with [Mock.a_text "Here you go";
                             Mock.an_image (DataBytes (Mock.png x02 x03))]))
       (Some Mock.photo) (Some Mock.shirt) 38 32 40 68 "2D Image" Mock.world0).1
    = (Some out, "Here you go" +:+ nl)
    ∧ im_size out = (2, 3)%N.
Proof.
  eapply (text_then_png_returned
            (Mock.env "secret"
               (Mock.answer_with [Mock.a_text "Here you go";
                                  Mock.an_image (DataBytes (Mock.png x02 x03))]))
            Mock.photo Mock.shirt 38 32 40 68 "2D Image" Mock.world0
            _ _ _ _ _ _ _ "Here you go" _ _ _ _ _
            {| im_mode := "RGB"; im_size := (2, 3)%N;
               im_data := [x08; x02; x00; x00; x00] |});
    [discriminate | vm_compute; reflexivity | reflexivity ..].
Defined.

(** An undecodable payload between two text parts. *)
Lemma decode_failure_is_local_witness :
  ∃ rest,
    (swap_clothing
       (Mock.env "secret"
          (Mock.answer_with [Mock.a_text "hi"; Mock.an_image (DataBytes [x00]);
                             Mock.a_text "bye"]))
       (Some Mock.photo) (Some Mock.shirt) 38 32 40 68 "2D Image" Mock.world0).1.2
    = ("hi" +:+ nl) +:+ "Error processing image: " +:+ "cannot identify image file"
        +:+ nl +:+ rest.
Proof.
  epose proof (decode_failure_is_local
               (Mock.env "secret"
                  (Mock.answer_with [Mock.a_text "hi"; Mock.an_image (DataBytes [x00]);
                                     Mock.a_text "bye"]))
               Mock.photo Mock.shirt 38 32 40 68 "2D Image" Mock.world0
               _ _ _ _ _ _ _
               [Mock.a_text "hi"] [Mock.a_text "bye"]
               (Mock.an_image (DataBytes [x00]))) as H.
  edestruct H as (st4 & rest & _ & _ & Htext);
    [ discriminate | vm_compute; reflexivity | reflexivity | reflexivity
    | reflexivity | reflexivity | reflexivity | vm_compute; reflexivity
    | vm_compute; reflexivity | ].
  exists rest. exact Htext.
Defined.

(** Two decodable payloads, the second as base64 text, then a text part and
    a payload that is not base64. *)
Lemma last_decodable_image_returned_witness :
  (swap_clothing
     (Mock.env "secret"
        (Mock.answer_with
           [Mock.an_image (DataBytes (Mock.png x04 x05));
            Mock.an_image (DataStr "iVBORw0KGgoAAAANSUhEUgAAAAIAAAADCAIAAAA=");
            Mock.a_text "done";
            Mock.an_image (DataStr "zz")]))
     (Some Mock.photo) (Some Mock.shirt) 38 32 40 68 "2D Image" Mock.world0).1.1
  = Some (Image_copy {| im_mode := "RGB"; im_size := (2, 3)%N;
                        im_data := [x08; x02; x00; x00; x00] |}).
Proof.
  eapply (last_decodable_image_returned
            (Mock.env "secret"
               (Mock.answer_with
                  [Mock.an_image (DataBytes (Mock.png x04 x05));
                   Mock.an_image (DataStr "iVBORw0KGgoAAAANSUhEUgAAAAIAAAADCAIAAAA=");
                   Mock.a_text "done";
                   Mock.an_image (DataStr "zz")]))
            Mock.photo Mock.shirt 38 32 40 68 "2D Image" Mock.world0
            _ _ _ _ _ _
            [Mock.an_image (DataBytes (Mock.png x04 x05))]
            [Mock.a_text "done"; Mock.an_image (DataStr "zz")]
            (Mock.an_image (DataStr "iVBORw0KGgoAAAANSUhEUgAAAAIAAAADCAIAAAA=")));
    [ discriminate | vm_compute; reflexivity | reflexivity | reflexivity
    | reflexivity | reflexivity | reflexivity | reflexivity
    | vm_compute; reflexivity | vm_compute; reflexivity | reflexivity
    | repeat constructor ].
Defined.

(** * Further properties *)

(** ** What the outer handler reports *)

Lemma error_details_lines (e : Exception) (warnings : list string) :
  error_details e warnings
  = "Error: " +:+ exn_str e +:+ " | Type: " +:+ exn_name e +:+ warning_lines warnings.
Proof.
  unfold error_details.
  assert (H : ∀ acc, foldl (λ acc w, acc +:+ nl +:+ "- Warning: " +:+ w) acc warnings
                     = acc +:+ warning_lines warnings).
  { induction warnings as [|w ws IH]; intros acc; simpl.
    - by rewrite StrFacts.app_nil_r.
    - rewrite IH. by rewrite !StrFacts.app_assoc. }
  rewrite H. by rewrite !StrFacts.app_assoc.
Qed.

Section Reports.
Context {Ext : Type} (E : Env Ext).
Variables (person clothing : Image) (chest waist hips height : Z) (output_mode : string).

(** A body that raised returns no image and the handler's text. *)
Lemma conclude_raise (e : Exception) (st : State Ext) :
  (conclude E (Raise e, st)).1
  = (None, error_details e (warning_list E (ext (world st)))).
Proof. reflexivity. Qed.

(** X1. When building the client, staging, uploading or generating raises
    [e], the call returns no image and the text
    "Error: <str(e)> | Type: <type name>" followed by one line
    "- Warning: <message>" per warning recorded up to then. *)
Theorem request_failure_reported (w : World Ext) (st1 : State Ext) (e : Exception) :
  GEMINI_API_KEY E ≠ "" →
  request E person clothing chest waist hips height output_mode (GEMINI_API_KEY E)
          (initial w) = (Raise e, st1) →
  (swap_clothing E (Some person) (Some clothing) chest waist hips height output_mode w).1
  = (None,
     "Error: " +:+ exn_str e +:+ " | Type: " +:+ exn_name e
       +:+ warning_lines (warning_list E (ext (world st1)))).
Proof.
  intros Hkey Hreq. unfold swap_clothing, try_body.
  destruct (String.eqb_spec (GEMINI_API_KEY E) ""); [contradiction|].
  unfold mbind, M_bind. rewrite Hreq, conclude_raise.
  by rewrite error_details_lines.
Qed.

(** X2. When the first candidate has a content whose [parts] is [None], the
    iteration of line 146 raises: the call returns no image and the
    handler's text for a [TypeError], not the fixed message of line 163. *)
Theorem partless_content_reported (w : World Ext) (st1 : State Ext)
    (response : GenerateContentResponse) (candidate : Candidate)
    (others : list Candidate) (c : Content) :
  GEMINI_API_KEY E ≠ "" →
  request E person clothing chest waist hips height output_mode (GEMINI_API_KEY E)
          (initial w) = (Normal (Some response), st1) →
  candidates response = Some (candidate :: others) →
  content candidate = Some c →
  parts c = None →
  (swap_clothing E (Some person) (Some clothing) chest waist hips height output_mode w).1
  = (None,
     "Error: 'NoneType' object is not iterable | Type: TypeError"
       +:+ warning_lines (warning_list E (ext (world st1)))).
Proof.
  intros Hkey Hreq Hcs Hc Hps.
  erewrite swap_clothing_reaches by eassumption.
  destruct response as [cs]. simpl in Hcs. subst cs.
  unfold process_response. rewrite Hc, Hps. unfold raise.
  by rewrite conclude_raise, error_details_lines.
Qed.

(** The walk over parts that all carry text. *)
Lemma walk_texts (ps : list Part) (st : State Ext) :
  Forall (λ part, text part ≠ None) ps →
  for_each ps (process_part E) st
  = (Normal tt, set_output_text (output_text st +:+ joined_texts ps) st).
Proof.
  intros Hall. revert st. induction Hall as [|part ps Hp _ IH]; intros st; simpl.
  { rewrite StrFacts.app_nil_r. by destruct st. }
  unfold mbind, M_bind, process_part.
  destruct (text part) as [t|]; [|done]. simpl.
  unfold append_text, modify. rewrite IH. simpl.
  by rewrite !StrFacts.app_assoc.
Qed.

(** X3. When every part of the first candidate carries text, the call
    returns no image and the texts in order, each followed by a line feed;
    inline data carried by such a part is not looked at. *)
Theorem text_parts_joined (w : World Ext) (st1 : State Ext)
    (response : GenerateContentResponse) (candidate : Candidate)
    (others : list Candidate) (c : Content) (ps : list Part) :
  GEMINI_API_KEY E ≠ "" →
  request E person clothing chest waist hips height output_mode (GEMINI_API_KEY E)
          (initial w) = (Normal (Some response), st1) →
  candidates response = Some (candidate :: others) →
  content candidate = Some c →
  parts c = Some ps →
  Forall (λ part, text part ≠ None) ps →
  (swap_clothing E (Some person) (Some clothing) chest waist hips height output_mode w).1
  = (None, joined_texts ps).
Proof.
  intros Hkey Hreq Hcs Hc Hps Hall.
  erewrite swap_clothing_reaches by eassumption.
  pose proof Hreq as Hfr. apply request_frame in Hfr as [Hi Ht]. simpl in Hi, Ht.
  destruct response as [cs]. simpl in Hcs. subst cs.
  unfold process_response. rewrite Hc, Hps, (walk_texts ps st1 Hall).
  rewrite conclude_normal. simpl. by rewrite Hi, Ht.
Qed.

End Reports.

(** ** The shape of a successful request *)

Section Trace.
Context {Ext : Type} (E : Env Ext).
Variables (person clothing : Image) (chest waist hips height : Z) (output_mode : string).

(** What the later phases need of a request that obtained an answer. *)
Lemma request_shape (api_key : string) (w : World Ext) (st1 : State Ext)
    (response : option GenerateContentResponse) :
  request E person clothing chest waist hips height output_mode api_key (initial w)
    = (Normal response, st1) →
  ∃ f0 f1,
    uploaded_files st1 = [f0; f1]
    ∧ client st1 = Some {| client_api_key := api_key |}
    ∧ ∃ contents σ σ',
        generate_content E "gemini-2.0-flash-exp" contents generate_content_config σ
        = (Gives response, σ').
Proof.
  unfold request, prepare. intros H.
  repeat (first [progress run | case_match]; simplify_eq/=).
  eexists _, _. repeat split; eauto.
Qed.

(** X4. A request that obtained an answer did exactly this, in this order:
    build the client, create a file and save the person image in it, create
    a file and save the clothing image in it, upload the first file, upload
    the second, ask the model [gemini-2.0-flash-exp] once with the captions,
    the two uploaded handles and the prompt; the answer of that call is the
    response.  Both paths are listed for removal and both handles for remote
    deletion. *)
Theorem request_trace (api_key : string) (w : World Ext) (st1 : State Ext)
    (response : option GenerateContentResponse) :
  request E person clothing chest waist hips height output_mode api_key (initial w)
    = (Normal response, st1) →
  ∃ p0 p1 f0 f1,
    (∃ σ bs σ', Image_save E person p0 σ = (Gives bs, σ'))
    ∧ (∃ σ bs σ', Image_save E clothing p1 σ = (Gives bs, σ'))
    ∧ (∃ files σ σ', files_upload E p0 files σ = (Gives f0, σ'))
    ∧ (∃ files σ σ', files_upload E p1 files σ = (Gives f1, σ'))
    ∧ (∃ contents σ σ',
         generate_content E "gemini-2.0-flash-exp" contents generate_content_config σ
         = (Gives response, σ'))
    ∧ temp_files st1 = [p0; p1]
    ∧ uploaded_files st1 = [f0; f1]
    ∧ client st1 = Some {| client_api_key := api_key |}
    ∧ log (world st1) = log w ++
        [ EClient api_key;
          ETempFile p0; ESave p0; ETempFile p1; ESave p1;
          EUpload p0; EUpload p1;
          EGenerate "gemini-2.0-flash-exp"
            [ {| role := Some "user";
                 parts := Some
                   [ Part_from_text "This is the person image. Do not change face or background.";
                     Part_from_uri (uri f0) (mime_type f0);
                     Part_from_text "This is the clothing image. Apply it on the person.";
                     Part_from_uri (uri f1) (mime_type f1);
                     Part_from_text (build_prompt chest waist hips height output_mode) ] |} ] ].
Proof.
  unfold request, prepare. intros H.
  repeat (first [progress run | case_match]; simplify_eq/=).
  eexists _, _, _, _. repeat split; try reflexivity; eauto.
  rewrite <- !(assoc_L (++)). reflexivity.
Qed.

End Trace.

(** ** The record of operations *)

Section Logs.
Context {Ext : Type} (E : Env Ext).

Ltac log_tail :=
  rewrite <- ?(assoc_L (++)); eexists; split; [reflexivity | repeat constructor].

(** A part of the response costs local operations only. *)
Lemma process_part_log (part : Part) (st st' : State Ext) (o : Outcome unit) :
  process_part E part st = (o, st') →
  ∃ l, log (world st') = log (world st) ++ l ∧ Forall local_event l.
Proof.
  unfold process_part. intros H.
  destruct (text part); [run; simplify_eq/=; exists []; by rewrite app_nil_r|].
  destruct (inline_data part); [|run; simplify_eq/=; exists []; by rewrite app_nil_r].
  run.
  repeat (case_match; simplify_eq/=);
    first [ log_tail | exists []; by rewrite app_nil_r ].
Qed.

Lemma walk_log (ps : list Part) (st st' : State Ext) :
  for_each ps (process_part E) st = (Normal tt, st') →
  ∃ l, log (world st') = log (world st) ++ l ∧ Forall local_event l.
Proof.
  revert st. induction ps as [|part ps IH]; intros st H; simpl in H.
  { unfold mret, M_ret in H. simplify_eq. exists []. by rewrite app_nil_r. }
  unfold mbind, M_bind in H.
  destruct (process_part E part st) as [o st0] eqn:Hp.
  destruct (process_part_normal E part st) as (st0' & s & Hp' & _).
  rewrite Hp in Hp'. simplify_eq.
  apply IH in H as (l2 & -> & Hl2).
  apply process_part_log in Hp as (l1 & -> & Hl1).
  exists (l1 ++ l2). rewrite (assoc_L (++)). split; [done|]. by apply Forall_app.
Qed.

(** The response phase keeps the lists of the [finally] block and the
    client, and costs local operations only. *)
Lemma process_response_frame (response : option GenerateContentResponse)
    (st st' : State Ext) (o : Outcome unit) :
  process_response E response st = (o, st') →
  (o = Normal tt ∨ ∃ e, o = Raise e)
  ∧ temp_files st' = temp_files st
  ∧ uploaded_files st' = uploaded_files st
  ∧ client st' = client st
  ∧ ∃ l, log (world st') = log (world st) ++ l ∧ Forall local_event l.
Proof.
  intros H.
  assert (Hnone : ∀ st0 : State Ext,
            ∃ l, log (world st0) = log (world st0) ++ l ∧ Forall local_event l).
  { intros st0. exists []. by rewrite app_nil_r. }
  unfold process_response in H.
  destruct response as [[[[|candidate others]|]]|];
    try (unfold modify in H; simplify_eq/=; eauto 10).
  destruct (content candidate) as [[r [ps|]]|]; simpl in H.
  - destruct (walk_normal E ps st) as (st2 & s & Hw & _ & Hf & Hu & Hc).
    rewrite Hw in H. simplify_eq. apply walk_log in Hw. eauto 10.
  - unfold raise in H. simplify_eq. eauto 10.
  - unfold mret, M_ret in H. simplify_eq. eauto 10.
Qed.

Lemma remove_temp_files_log (paths : list string) (st st' : State Ext) :
  for_each paths remove_temp_file st = (Normal tt, st') →
  ∃ l, log (world st') = log (world st) ++ l ∧ Forall local_event l.
Proof.
  revert st. induction paths as [|p paths IH]; intros st H; simpl in H.
  { unfold mret, M_ret in H. simplify_eq. exists []. by rewrite app_nil_r. }
  unfold mbind, M_bind in H.
  destruct (remove_temp_file p st) as [o st0] eqn:Hp.
  destruct (remove_temp_file_spec p st) as (st0' & Hp' & _).
  rewrite Hp in Hp'. simplify_eq.
  apply IH in H as (l2 & -> & Hl2).
  assert (∃ l1, log (world st0') = log (world st) ++ l1 ∧ Forall local_event l1)
    as (l1 & -> & Hl1).
  { unfold remove_temp_file in Hp. run.
    repeat (case_match; simplify_eq/=);
      first [ log_tail | exists []; by rewrite app_nil_r ]. }
  exists (l1 ++ l2). rewrite (assoc_L (++)). split; [done|]. by apply Forall_app.
Qed.

(** With a client at hand, each handle costs one deletion attempt, whatever
    the attempt answers. *)
Lemma delete_uploads_log (files : list File) (st : State Ext) (c : Client) :
  client st = Some c →
  ∃ st', for_each files (delete_uploaded E) st = (Normal tt, st')
    ∧ log (world st') = log (world st) ++ (ERemoteDelete ∘ uri <$> files).
Proof.
  revert st. induction files as [|f files IH]; intros st Hc; simpl.
  { exists st. by rewrite app_nil_r. }
  assert (∃ st0, delete_uploaded E f st = (Normal tt, st0)
                 ∧ client st0 = Some c
                 ∧ log (world st0) = log (world st) ++ [ERemoteDelete (uri f)])
    as (st0 & H0 & Hc0 & Hl0).
  { unfold delete_uploaded. run. rewrite Hc.
    destruct (files_delete E (uri f) (ext (world st))) as [[[]|e] σ]; simpl;
      eexists; eauto. }
  destruct (IH st0 Hc0) as (st' & H' & Hl').
  exists st'. unfold mbind, M_bind. rewrite H0, H'. split; [done|].
  rewrite Hl', Hl0. by rewrite <- (assoc_L (++)).
Qed.


(** With a client and handles the block ends on the deletion attempts. *)
Lemma finally_block_log_remote (st : State Ext) (c : Client) :
  client st = Some c →
  ∃ l, log (world (finally_block E st).2)
       = log (world st) ++ l ++ (ERemoteDelete ∘ uri <$> uploaded_files st)
       ∧ Forall local_event l.
Proof.
  intros Hc. unfold finally_block.
  destruct (remove_temp_files_spec (temp_files st) st)
    as (st1 & H1 & _ & _ & _ & Hu1 & Hc1).
  rewrite Hc in Hc1.
  destruct (delete_uploads_log (uploaded_files st1) st1 c Hc1) as (st2 & H2 & Hl2).
  unfold mbind, M_bind, get, modify. rewrite H1, H2. simpl.
  apply remove_temp_files_log in H1 as (l & Hl & Hloc).
  exists l. rewrite Hl2, Hl, Hu1. by rewrite <- (assoc_L (++)).
Qed.

End Logs.

(** ** Remote deletion *)

Section Remote.
Context {Ext : Type} (E : Env Ext).
Variables (chest waist hips height : Z) (output_mode : string).




(** X5. Whenever the model's answer was obtained, the call ends on the
    deletion attempts for the two uploaded handles, in upload order, whatever
    the response holds and whatever the first attempt answers. *)
Theorem uploads_deleted_at_the_end (person clothing : Image)
    (w : World Ext) (st1 : State Ext) (response : option GenerateContentResponse) :
  GEMINI_API_KEY E ≠ "" →
  request E person clothing chest waist hips height output_mode (GEMINI_API_KEY E)
          (initial w) = (Normal response, st1) →
  ∃ f0 f1 l,
    uploaded_files st1 = [f0; f1]
    ∧ log (swap_clothing E (Some person) (Some clothing) chest waist hips height
                         output_mode w).2
      = l ++ [ERemoteDelete (uri f0); ERemoteDelete (uri f1)].
Proof.
  intros Hkey Hreq.
  erewrite swap_clothing_reaches by eassumption.
  apply request_shape in Hreq as (f0 & f1 & Hu & Hc & _).
  exists f0, f1.
  destruct (process_response E response st1) as [o st2] eqn:Hp.
  apply process_response_frame in Hp as (_ & _ & Hu2 & Hc2 & _).
  rewrite Hc in Hc2.
  destruct (finally_block_log_remote E st2 _ Hc2) as (l & Hl & _).
  rewrite Hu2, Hu in Hl. simpl in Hl.
  exists (log (world st2) ++ l).
  unfold conclude. destruct (handled E o st2); simpl; rewrite Hl;
    by rewrite <- (assoc_L (++)).
Qed.


End Remote.

(** ** What is left on the filesystem *)

Section Files.
Context {Ext : Type} (E : Env Ext).
Variables (chest waist hips height : Z) (output_mode : string).

(** X7. Every path that was appended to [temp_files] (line 72) by the time
    the [try] body ends is absent from the filesystem when the call
    returns, however the body ended. *)
Theorem registered_files_removed (person_image clothing_image : option Image)
    (w : World Ext) (o : Outcome unit) (st : State Ext) (p : string) :
  try_body E person_image clothing_image chest waist hips height output_mode (initial w)
    = (o, st) →
  p ∈ temp_files st →
  fs (swap_clothing E person_image clothing_image chest waist hips height
                    output_mode w).2 !! p = None.
Proof.
  intros Hbody Hin. unfold swap_clothing. rewrite Hbody.
  pose proof (finally_removes_registered E st p Hin) as Hgone.
  unfold conclude. by destruct (handled E o st).
Qed.

(** X8. Remote deletion is best effort: whatever [client.files.delete]
    does, the image and the text returned and the local filesystem left are
    the same. *)
Theorem deletion_outcome_irrelevant
    (delete : string → Ext → external unit * Ext)
    (person_image clothing_image : option Image) (w : World Ext) :
  let r := swap_clothing E person_image clothing_image chest waist hips height
                         output_mode w in
  let r' := swap_clothing (with_files_delete delete E) person_image clothing_image
                          chest waist hips height output_mode w in
  r'.1 = r.1 ∧ fs r'.2 = fs r.2.
Proof.
  unfold swap_clothing.
  change (try_body (with_files_delete delete E)) with (try_body E).
  destruct (try_body E person_image clothing_image chest waist hips height
                     output_mode (initial w)) as [o st].
  unfold conclude.
  change (handled (with_files_delete delete E) o st) with (handled E o st).
  destruct (finally_block_spec E st) as (s1 & H1 & Hf1 & Hi1 & Ht1).
  destruct (finally_block_spec (with_files_delete delete E) st)
    as (s2 & H2 & Hf2 & Hi2 & Ht2).
  rewrite H1, H2. simpl.
  destruct (handled E o st); simpl; rewrite ?Hi1, ?Hi2, ?Ht1, ?Ht2, Hf1, Hf2; done.
Qed.

(** Creating a file under a fresh name, writing it over and removing it
    again gives the filesystem back. *)
Lemma delete_written (files : Files) (p : string) (bs : list byte) :
  files !! p = None → delete p (<[p := bs]> (<[p := []]> files)) = files.
Proof.
  intros Hp. rewrite insert_insert_eq, delete_insert_eq. by apply delete_id.
Qed.

Lemma delete_two_written (files : Files) (p0 p1 : string) (a b : list byte) :
  files !! p0 = None →
  <[p0 := a]> (<[p0 := []]> files) !! p1 = None →
  delete p1 (delete p0 (<[p1 := b]> (<[p1 := []]> (<[p0 := a]> (<[p0 := []]> files)))))
  = files.
Proof.
  intros H0 H1. rewrite (delete_delete _ p1 p0).
  rewrite (delete_written _ p1 b H1). by apply delete_written.
Qed.

(** Under fresh names and an encoder that accepts both images, removing the
    listed paths after the request gives the filesystem back, however the
    request ended. *)
Lemma request_files (person clothing : Image) (api_key : string)
    (w : World Ext) (st1 : State Ext) (o : Outcome (option GenerateContentResponse)) :
  fresh_names E → saves E person → saves E clothing →
  request E person clothing chest waist hips height output_mode api_key (initial w)
    = (o, st1) →
  foldl (λ files p, delete p files) (fs (world st1)) (temp_files st1) = fs w.
Proof.
  intros Hfresh Hsp Hsc. unfold request, prepare. intros H.
  repeat (first [progress run | case_match]; simplify_eq/=);
    repeat match goal with
    | Hs : Image_save E person ?n ?σ = (Throws _, _) |- _ =>
        exfalso; destruct (Hsp n σ) as (? & ? & ?); congruence
    | Hs : Image_save E clothing ?n ?σ = (Throws _, _) |- _ =>
        exfalso; destruct (Hsc n σ) as (? & ? & ?); congruence
    | Hn : NamedTemporaryFile E _ _ _ = (Gives _, _) |- _ => apply Hfresh in Hn
    end;
    first [ done | by apply delete_written | by apply delete_two_written ].
Qed.

(** Under fresh names, a part whose payload the decoder reads leaves the
    filesystem as it was: the file of line 154 is removed on line 159. *)
Lemma process_part_files (part : Part) (st st' : State Ext) (o : Outcome unit) :
  fresh_names E → opens E part →
  process_part E part st = (o, st') →
  fs (world st') = fs (world st).
Proof.
  intros Hfresh. unfold opens, process_part, payload_bytes.
  destruct (text part) as [t|]; [intros _ H; run; by simplify_eq/=|].
  destruct (inline_data part) as [[d]|]; [|intros _ H; run; by simplify_eq/=].
  intros Ho H. run.
  destruct d as [bs | s |]; simpl in *;
    [| destruct (b64decode E s) as [bs|e]; simpl in *; [|by simplify_eq/=]
     | by simplify_eq/=].
  all: repeat (case_match; simplify_eq/=); try reflexivity;
    rewrite ?lookup_insert_eq in *; simplify_eq;
    try match goal with
    | Hx : Image_open E ?b ?σ = (Throws _, _) |- _ =>
        exfalso; destruct (Ho σ) as (? & ? & ?); congruence
    end;
    match goal with
    | Hn : NamedTemporaryFile E _ _ _ = (Gives _, _) |- _ =>
        apply Hfresh in Hn; by apply delete_written
    end.
Qed.

Lemma walk_files (ps : list Part) (st st' : State Ext) :
  fresh_names E → Forall (opens E) ps →
  for_each ps (process_part E) st = (Normal tt, st') →
  fs (world st') = fs (world st).
Proof.
  intros Hfresh Hall. revert st.
  induction Hall as [|part ps Hp _ IH]; intros st H; simpl in H.
  { unfold mret, M_ret in H. by simplify_eq. }
  unfold mbind, M_bind in H.
  destruct (process_part E part st) as [o st0] eqn:Hpp.
  destruct (process_part_normal E part st) as (st0' & s & Hp' & _).
  rewrite Hpp in Hp'. simplify_eq.
  rewrite (IH _ H). by eapply process_part_files.
Qed.

Lemma process_response_files (response : option GenerateContentResponse)
    (st st' : State Ext) (o : Outcome unit) :
  fresh_names E → Forall (opens E) (first_parts response) →
  process_response E response st = (o, st') →
  fs (world st') = fs (world st).
Proof.
  intros Hfresh Hall H. unfold process_response in H.
  destruct response as [[[[|candidate others]|]]|];
    try (unfold modify in H; by simplify_eq/=).
  simpl in Hall.
  destruct (content candidate) as [[r [ps|]]|]; simpl in H.
  - destruct (walk_normal E ps st) as (st2 & s & Hw & _).
    rewrite Hw in H. simplify_eq. by eapply walk_files.
  - unfold raise in H. by simplify_eq.
  - unfold mret, M_ret in H. by simplify_eq.
Qed.

(** X9. When the facility hands out fresh names, the encoder accepts both
    images and the decoder reads every payload of the first candidate that
    reaches it, the call leaves the filesystem exactly as it found it,
    whatever else fails (client, upload, generation, remote deletion). *)
Theorem files_restored (person clothing : Image) (w : World Ext) :
  fresh_names E → saves E person → saves E clothing → answers_open E →
  fs (swap_clothing E (Some person) (Some clothing) chest waist hips height
                    output_mode w).2 = fs w.
Proof.
  intros Hfresh Hsp Hsc Hans. unfold swap_clothing, try_body.
  destruct (String.eqb (GEMINI_API_KEY E) ""); [by destruct w|].
  unfold mbind, M_bind.
  destruct (request E person clothing chest waist hips height output_mode
                    (GEMINI_API_KEY E) (initial w)) as [o st1] eqn:Hreq.
  pose proof (request_files _ _ _ _ _ _ Hfresh Hsp Hsc Hreq) as Hclean.
  assert (Hend : ∀ (o2 : Outcome unit) (st2 : State Ext),
            fs (world st2) = fs (world st1) → temp_files st2 = temp_files st1 →
            fs (conclude E (o2, st2)).2 = fs w).
  { intros o2 st2 Hf Ht. unfold conclude.
    destruct (finally_block_spec E st2) as (st3 & H3 & Hf3 & _).
    rewrite H3. simpl.
    destruct (handled E o2 st2); simpl; by rewrite Hf3, Hf, Ht. }
  destruct o as [response | e | r]; [| by apply Hend | by apply Hend].
  pose proof Hreq as Htr.
  apply request_shape in Htr as (_ & _ & _ & _ & cs & σ & σ' & Hgen).
  apply Hans in Hgen.
  destruct (process_response E response st1) as [o2 st2] eqn:Hp.
  pose proof Hp as Hfr.
  apply process_response_frame in Hfr as (_ & Ht & _).
  apply Hend; [|done]. by eapply process_response_files.
Qed.

End Files.


(** ** The prompt determines the measurements *)

Section PromptReading.
Import Str StrFacts.

Lemma to_int_not_nil (z : Z) :
  Z.to_int z ≠ Decimal.Pos Decimal.Nil ∧ Z.to_int z ≠ Decimal.Neg Decimal.Nil.
Proof.
  destruct z as [|p|p]; simpl; split; try discriminate;
    intros H; injection H as H; by apply DecimalPos.Unsigned.to_uint_nonnil in H.
Qed.

(** Reading the numeral back gives the integer: [str] loses nothing. *)
Lemma str_int_inj (a b : Z) : str_int a = str_int b → a = b.
Proof.
  unfold str_int. intros H.
  apply (f_equal NilZero.int_of_string) in H.
  destruct (to_int_not_nil a), (to_int_not_nil b).
  rewrite !NilZero.isi in H by done. injection H as H.
  by apply DecimalZ.to_int_inj.
Qed.

(** A numeral holds no space. *)
Lemma str_int_no_space (z : Z) : occurs " " (str_int z) = false.
Proof.
  unfold str_int, NilZero.string_of_int, NilZero.string_of_uint.
  assert (Hu : ∀ d, occurs " " (NilEmpty.string_of_uint d) = false).
  { induction d; simpl; auto. }
  destruct (Z.to_int z) as [d|d]; destruct d; simpl; try apply Hu; reflexivity.
Qed.

(** Two texts without spaces, each followed by a space, are read off
    unambiguously. *)
Lemma space_delimited (s s' r r' : string) :
  occurs " " s = false → occurs " " s' = false →
  s +:+ String " " r = s' +:+ String " " r' → s = s' ∧ r = r'.
Proof.
  revert s'. induction s as [|x s IH]; intros [|x' s'] Hs Hs' H.
  - change (String " " r = String " " r') in H. by simplify_eq.
  - change (String " " r = String x' (s' +:+ String " " r')) in H.
    injection H as <- _. simpl in Hs'. done.
  - change (String x (s +:+ String " " r) = String " " r') in H.
    injection H as -> _. simpl in Hs. done.
  - change (String x (s +:+ String " " r) = String x' (s' +:+ String " " r')) in H.
    injection H as <- H.
    change ((if Ascii.eqb " " x then true else occurs " " s) = false) in Hs.
    change ((if Ascii.eqb " " x then true else occurs " " s') = false) in Hs'.
    revert Hs Hs'. destruct (Ascii.eqb " " x); intros Hs Hs'; [done|].
    destruct (IH s' Hs Hs' H) as [-> ->]. done.
Qed.

(** X10. Two prompts are equal only if the four measurements are equal:
    the prompt determines chest, waist, hips and height, whatever the
    modes. *)
Theorem prompt_determines_measurements
    (chest waist hips height chest' waist' hips' height' : Z)
    (output_mode output_mode' : string) :
  build_prompt chest waist hips height output_mode
  = build_prompt chest' waist' hips' height' output_mode' →
  chest = chest' ∧ waist = waist' ∧ hips = hips' ∧ height = height'.
Proof.
  assert (Hshape : ∀ c w h t m, ∃ rest,
    build_prompt c w h t m =
      prompt_lit0 +:+ str_int c +:+ prompt_lit1 +:+ str_int w +:+
      prompt_lit2 +:+ str_int h +:+ prompt_lit3 +:+ str_int t +:+
      prompt_lit4 +:+ rest).
  { intros c w h t m. unfold build_prompt.
    destruct (String.eqb m "3D Model"); eexists; rewrite ?app_assoc; reflexivity. }
  intros H.
  destruct (Hshape chest waist hips height output_mode) as (r & Hr).
  destruct (Hshape chest' waist' hips' height' output_mode') as (r' & Hr').
  rewrite Hr, Hr' in H. clear Hr Hr' Hshape.
  apply (inj (String.app prompt_lit0)) in H.
  apply space_delimited in H as [Hc H]; try apply str_int_no_space.
  apply (inj (String.app (String.substring 1 28 prompt_lit1))) in H.
  apply space_delimited in H as [Hw H]; try apply str_int_no_space.
  apply (inj (String.app (String.substring 1 27 prompt_lit2))) in H.
  apply space_delimited in H as [Hh H]; try apply str_int_no_space.
  apply (inj (String.app (String.substring 1 29 prompt_lit3))) in H.
  apply space_delimited in H as [Ht H]; try apply str_int_no_space.
  repeat split; by apply str_int_inj.
Qed.

End PromptReading.


(** ** The page as the source has it *)

Section PageFacts.
Context {Ext : Type} (E : Env Ext).
Variable Image_open_upload : list byte → Ext → external Image * Ext.
Variables (chest waist hips height : Z) (output_mode : string).

(** X11. With the key as line 62 has it (empty), pressing [Generate] never
    shows an image: the page shows either its own error for a missing
    upload or the credential message as text, or stops on what [Image.open]
    throws; no file is created and nothing is sent. *)
Theorem page_without_key (person_file clothing_file : option (list byte))
    (w : World Ext) :
  GEMINI_API_KEY E = "" →
  let r := generate_clicked E Image_open_upload person_file clothing_file
                            chest waist hips height output_mode w in
  fs r.2 = fs w ∧ log r.2 = log w
  ∧ ∀ elements, r.1 = Gives elements →
      elements = [st_error "Please upload both images."]
      ∨ elements = [st_text "GEMINI_API_KEY not found. Please set it in your environment."].
Proof.
  intros Hkey. unfold generate_clicked.
  destruct person_file as [pf|], clothing_file as [cf|];
    try (simpl; split; [done|]; split; [done|]; intros els Hels; simplify_eq; by left).
  destruct (Image_open_upload pf (ext w)) as [[person|e] σ1];
    [| simpl; split; [done|]; split; [done|]; intros els Hels; discriminate ].
  destruct (Image_open_upload cf σ1) as [[clothing|e] σ2];
    [| simpl; split; [done|]; split; [done|]; intros els Hels; discriminate ].
  unfold swap_clothing, try_body. rewrite Hkey. simpl.
  split; [done|]. split; [done|]. intros els Hels. simplify_eq. by right.
Qed.

End PageFacts.


(** ** The remaining statements at the test doubles *)

Lemma mock2_fresh_names (api_key : string)
    (answer : external (option GenerateContentResponse)) :
  fresh_names (Mock2.env api_key answer).
Proof.
  intros suffix files σ name σ' H. simpl in H. simplify_eq.
  apply not_elem_of_dom. apply is_fresh.
Qed.

(** A run of the second test double with a text part and a decodable
    payload. *)
Lemma files_restored_witness :
  fs (swap_clothing
        (Mock2.env "secret"
           (Mock.answer_with [Mock.a_text "hi";
                              Mock.an_image (DataBytes (Mock.png x02 x03))]))
        (Some Mock.photo) (Some Mock.shirt) 38 32 40 68 "2D Image" Mock.world0).2
  = fs Mock.world0.
Proof.
  apply (files_restored
           (Mock2.env "secret"
              (Mock.answer_with [Mock.a_text "hi";
                                 Mock.an_image (DataBytes (Mock.png x02 x03))]))
           38 32 40 68 "2D Image" Mock.photo Mock.shirt Mock.world0).
  - apply mock2_fresh_names.
  - intros name σ. eexists _, _. reflexivity.
  - intros name σ. eexists _, _. reflexivity.
  - intros model contents config σ response σ' H. simpl in H.
    unfold Mock.answer_with in H. simplify_eq. simpl.
    constructor; [exact I|]. constructor; [|constructor].
    intros σ0. eexists _, _. reflexivity.
Defined.

(** A run in which the second save is refused: the first staged file is
    listed and gone. *)
Lemma registered_files_removed_witness :
  fs (swap_clothing (Mock.env "secret" (Mock.answer_with []))
        (Some Mock.photo) (Some Mock.cutout) 38 32 40 68 "2D Image" Mock.world0).2
    !! "/tmp/tmp0.jpg" = None.
Proof.
  eapply (registered_files_removed (Mock.env "secret" (Mock.answer_with []))
            38 32 40 68 "2D Image" (Some Mock.photo) (Some Mock.cutout) Mock.world0).
  - vm_compute. reflexivity.
  - apply list_elem_of_In. simpl. left. reflexivity.
Defined.

(** The clothing image is refused by the JPEG writer. *)
Lemma request_failure_reported_witness :
  (swap_clothing (Mock.env "secret" (Mock.answer_with []))
     (Some Mock.photo) (Some Mock.cutout) 38 32 40 68 "2D Image" Mock.world0).1
  = (None, "Error: cannot write mode RGBA as JPEG | Type: OSError").
Proof.
  etransitivity;
    [ apply (request_failure_reported (Mock.env "secret" (Mock.answer_with []))
               Mock.photo Mock.cutout 38 32 40 68 "2D Image" Mock.world0);
        [discriminate | vm_compute; reflexivity]
    | reflexivity ].
Defined.

(** A candidate whose content has no list of parts. *)
Lemma partless_content_reported_witness :
  (swap_clothing
     (Mock.env "secret"
        (Gives (Some {| candidates := Some
           [ {| content := Some {| role := Some "model"; parts := None |} |} ] |})))
     (Some Mock.photo) (Some Mock.shirt) 38 32 40 68 "2D Image" Mock.world0).1
  = (None, "Error: 'NoneType' object is not iterable | Type: TypeError").
Proof.
  etransitivity;
    [ eapply (partless_content_reported
                (Mock.env "secret"
                   (Gives (Some {| candidates := Some
                      [ {| content := Some {| role := Some "model"; parts := None |} |} ] |})))
                Mock.photo Mock.shirt 38 32 40 68 "2D Image" Mock.world0);
        [discriminate | vm_compute; reflexivity | reflexivity ..]
    | reflexivity ].
Defined.

(** Two text parts, the second of which also carries inline data. *)
Lemma text_parts_joined_witness :
  (swap_clothing
     (Mock.env "secret"
        (Mock.answer_with
           [ Mock.a_text "one";
             {| text := Some "two";
                inline_data := Some {| data := DataBytes (Mock.png x02 x03) |};
                file_data := None |} ]))
     (Some Mock.photo) (Some Mock.shirt) 38 32 40 68 "2D Image" Mock.world0).1
  = (None, "one" +:+ nl +:+ "two" +:+ nl).
Proof.
  etransitivity;
    [ eapply (text_parts_joined
                (Mock.env "secret"
                   (Mock.answer_with
                      [ Mock.a_text "one";
                        {| text := Some "two";
                           inline_data := Some {| data := DataBytes (Mock.png x02 x03) |};
                           file_data := None |} ]))
                Mock.photo Mock.shirt 38 32 40 68 "2D Image" Mock.world0);
        [ discriminate | vm_compute; reflexivity | reflexivity | reflexivity
        | reflexivity
        | constructor; [discriminate|]; constructor; [discriminate|]; constructor ]
    | reflexivity ].
Defined.

(** The request of a run of the test double. *)
Lemma request_trace_witness :
  ∃ p0 p1,
    temp_files
      (request (Mock.env "secret" (Mock.answer_with []))
               Mock.photo Mock.shirt 38 32 40 68 "2D Image" "secret"
               (initial Mock.world0)).2
    = [p0; p1].
Proof.
  epose proof (request_trace (Mock.env "secret" (Mock.answer_with []))
                 Mock.photo Mock.shirt 38 32 40 68 "2D Image" "secret"
                 Mock.world0 _ _) as H.
  edestruct H as (p0 & p1 & f0 & f1 & _ & _ & _ & _ & _ & Ht & _);
    [vm_compute; reflexivity|].
  exists p0, p1. exact Ht.
Defined.

(** The end of a run of the test double. *)
Lemma uploads_deleted_at_the_end_witness :
  ∃ f0 f1 l,
    log (swap_clothing (Mock.env "secret" (Mock.answer_with [Mock.a_text "hi"]))
           (Some Mock.photo) (Some Mock.shirt) 38 32 40 68 "2D Image" Mock.world0).2
    = l ++ [ERemoteDelete (uri f0); ERemoteDelete (uri f1)].
Proof.
  epose proof (uploads_deleted_at_the_end
                 (Mock.env "secret" (Mock.answer_with [Mock.a_text "hi"]))
                 38 32 40 68 "2D Image" Mock.photo Mock.shirt Mock.world0 _ _) as H.
  edestruct H as (f0 & f1 & l & _ & Hl); [discriminate | vm_compute; reflexivity |].
  exists f0, f1, l. exact Hl.
Defined.

(** A response without candidates. *)
Lemma no_candidates_reported_witness :
  (swap_clothing (Mock.env "secret" (Gives (Some {| candidates := Some [] |})))
     (Some Mock.photo) (Some Mock.shirt) 38 32 40 68 "2D Image" Mock.world0).1
  = (None, invalid_response_message).
Proof.
  eapply (no_candidates_reported
            (Mock.env "secret" (Gives (Some {| candidates := Some [] |})))
            Mock.photo Mock.shirt 38 32 40 68 "2D Image" Mock.world0);
    [discriminate | vm_compute; reflexivity | ].
  right. eexists. split; [reflexivity|]. right. reflexivity.
Defined.
(** The default measurements of the page. *)
Lemma prompt_determines_measurements_witness :
  38 = 38 ∧ 32 = 32 ∧ 40 = 40 ∧ 68 = 68.
Proof.
  apply (prompt_determines_measurements 38 32 40 68 38 32 40 68 "2D Image" "2D Image").
  reflexivity.
Defined.

(** The page of the test double with the key left empty. *)
Lemma page_without_key_witness :
  let r := generate_clicked (Mock.env "" (Mock.answer_with []))
             (λ bs n, (Mock.decode_png bs, n))
             (Some (Mock.png x02 x03)) (Some (Mock.png x04 x05))
             38 32 40 68 "2D Image" Mock.world0 in
  fs r.2 = fs Mock.world0 ∧ log r.2 = log Mock.world0
  ∧ ∀ elements, r.1 = Gives elements →
      elements = [st_error "Please upload both images."]
      ∨ elements = [st_text "GEMINI_API_KEY not found. Please set it in your environment."].
Proof.
  apply (page_without_key (Mock.env "" (Mock.answer_with []))
           (λ bs n, (Mock.decode_png bs, n)) 38 32 40 68 "2D Image").
  reflexivity.
Defined.
